(** * pgsrv: a PostgreSQL wire-protocol server shell

    Shallow embedding of the password authenticators (package pgsrv),
    the query dispatcher (query.go) and the extended-query transaction
    buffer (package protocol), followed by the properties proved about
    them. *)

From Stdlib Require Import ZArith NArith List String Ascii Bool Lia.
From Stdlib.Strings Require Import Byte.
From Stdlib Require Import DecimalString.
From stdpp Require Import base option list gmap strings.

Import ListNotations.
Open Scope Z_scope.

(** ** Go runtime conventions shared by the packages *)
Module Go.

(** A run-time panic aborts the calling function instead of returning. *)
Inductive panic : Type :=
| SliceBoundsOutOfRange
| IndexOutOfRange
| InterfaceConversion.

(** [Unfinished] is not an outcome of the program: it marks a run of
    the model whose step budget ended inside an unbounded [for] loop. *)
Inductive result (A : Type) : Type :=
| Return (a : A)
| Panic (p : panic)
| Unfinished.
Arguments Return {A} a.
Arguments Panic {A} p.
Arguments Unfinished {A}.

(** [interface{}] values as far as the sources inspect them. *)
Inductive any : Type :=
| AnyNil
| AnyString (s : string)
| AnyInt (z : Z)
| AnyBool (b : bool)
| AnyBytes (bs : list byte).

(** [v.(string)]: a failed single-valued type assertion panics. *)
Definition assert_string (v : any) : result string :=
  match v with
  | AnyString s => Return s
  | _ => Panic InterfaceConversion
  end.

(** [m[k]] on a [map[string]interface{}]: a missing key reads as nil. *)
Definition index (m : gmap string any) (k : string) : any :=
  match m !! k with
  | Some v => v
  | None => AnyNil
  end.

(** [s[lo:hi]] on a byte slice; the bounds are checked at run time
    (against the length: the sources never slice into spare capacity). *)
Definition slice (s : list byte) (lo hi : Z) : result (list byte) :=
  if (0 <=? lo) && (lo <=? hi) && (hi <=? Z.of_nat (length s))
  then Return (firstn (Z.to_nat (hi - lo)) (skipn (Z.to_nat lo) s))
  else Panic SliceBoundsOutOfRange.

(** [bytes.Equal] *)
Fixpoint bytes_Equal (a b : list byte) : bool :=
  match a, b with
  | [], [] => true
  | x :: a', y :: b' => Byte.eqb x y && bytes_Equal a' b'
  | _, _ => false
  end.

(** [[]byte(s)] *)
Definition bytes_of (s : string) : list byte := list_byte_of_string s.

Definition hexdigit (n : N) : ascii :=
  nth (N.to_nat n) (list_ascii_of_string "0123456789abcdef") "0"%char.

(** [%x] on a byte slice or array: two lower-case digits per byte. *)
Fixpoint Sprintf_x (bs : list byte) : string :=
  match bs with
  | [] => EmptyString
  | b :: bs' =>
      String (hexdigit (Byte.to_N b / 16))
        (String (hexdigit (Byte.to_N b mod 16)) (Sprintf_x bs'))
  end.

(** [%c] on a byte: the UTF-8 encoding of the code point of that value. *)
Definition Sprintf_c (b : byte) : string :=
  let n := Byte.to_N b in
  if (n <? 128)%N then String (ascii_of_byte b) EmptyString
  else String (ascii_of_N (192 + n / 64))
         (String (ascii_of_N (128 + n mod 64)) EmptyString).

(** [%d] on a signed integer. *)
Definition Sprintf_d (z : Z) : string := NilZero.string_of_int (Z.to_int z).

(** Two's-complement wrap-around of [int64], and of [int] on 64-bit
    targets. *)
Definition wrap64 (z : Z) : Z := (z + 2 ^ 63) mod 2 ^ 64 - 2 ^ 63.

(** Values of the [error] interface.  [fromErr] and [WithSeverity] of
    package pgsrv, which the sources call but do not define, build
    errors from errors; they are left uninterpreted, a constructor
    each. *)
Inductive error : Type :=
| io_EOF
| errorString (text : string)
| fromErr (e : error)
| WithSeverity (e : error) (severity : string).

(** [%v] on the values a database driver hands over (floating-point
    numbers and time stamps are left out). *)
Definition Sprintf_v (v : any) : string :=
  match v with
  | AnyNil => "<nil>"
  | AnyString s => s
  | AnyInt z => Sprintf_d z
  | AnyBool b => if b then "true" else "false"
  | AnyBytes bs =>
      String.append "["
        (String.append
           (String.concat " "
              (map (fun b => Sprintf_d (Z.of_N (Byte.to_N b))) bs))
           "]")
  end.

(** [copy(dst, src)]: overwrites the first [min(len(dst), len(src))]
    elements of [dst]. *)
Definition copy {A} (dst src : list A) : list A :=
  firstn (length dst) src ++ skipn (length src) dst.

(** [err == io.EOF] *)
Definition is_EOF (e : error) : bool :=
  match e with
  | io_EOF => true
  | _ => false
  end.

End Go.
Export Go.

(** ** A small monad for code that talks to the outside and may panic *)
Module IO.

Definition io (S A : Type) : Type := S -> result A * S.

Definition ret {S A} (a : A) : io S A := fun s => (Return a, s).

Definition bind {S A B} (c : io S A) (k : A -> io S B) : io S B :=
  fun s =>
    match c s with
    | (Return a, s') => k a s'
    | (Panic p, s') => (Panic p, s')
    | (Unfinished, s') => (Unfinished, s')
    end.

(** A pure step that may panic. *)
Definition lift {S A} (r : result A) : io S A := fun s => (r, s).

(** A call that always returns, given as a state transformer. *)
Definition call {S A} (f : S -> A * S) : io S A :=
  fun s => let '(a, s') := f s in (Return a, s').

End IO.
Export IO.

Notation "'let*' x ':=' c 'in' k" := (bind c (fun x => k))
  (at level 10, x pattern, c at level 200, k at level 200, only parsing).

(** ** Package pgsrv *)
Module pgsrv.

(** Modelled from the spec: the message type [msg] and its [Type]
    accessor (their declaration is not among the sources).  A message
    is the byte sequence that goes on the wire and its first byte is
    the one-byte type tag; the sources build and slice it as a byte
    slice. *)
Definition msg : Type := list byte.

Definition msg_Type (m : msg) : byte :=
  match m with
  | b :: _ => b
  | [] => x00
  end.

Record column : Type := { name : string }.

(** The message constructors that the sources call but do not define. *)
Class msgEncoders : Type := {
  errMsg : error -> msg;
  rowDescriptionMsg : list column -> msg;
  dataRowMsg : list string -> msg;
  completeMsg : string -> msg
}.

(** Modelled from the spec: the severity constant [FATAL] (declared
    outside the sources); the emitted error carries severity fatal. *)
Definition FATAL : string := "FATAL".

Definition dquote : ascii := "034"%char.

(** [fmt.Errorf(expectedPasswordMessage, t)] *)
Definition expectedPasswordMessage (t : byte) : error :=
  errorString
    (String.append "expected password response, got message type " (Sprintf_c t)).

(** [fmt.Errorf(passwordDidNotMatch, user)] *)
Definition passwordDidNotMatch (user : string) : error :=
  errorString
    (String.append "Password does not match for user "
       (String dquote (String.append user (String dquote EmptyString)))).

(** [msgReadWriter]: objects that handle client-server communication. *)
Class msgReadWriter (RW : Type) : Type := {
  Write : msg -> RW -> option error * RW;
  Read : RW -> (msg * option error) * RW
}.

(** [passwordProvider]: provides a password given a user name. *)
Class passwordProvider (P : Type) : Type := {
  getPassword : P -> string -> list byte * option error
}.

(** The digest of [crypto/md5]. *)
Class md5 : Type := { md5_Sum : list byte -> list byte }.

Record constantPasswordProvider : Type := { cpp_password : list byte }.

#[export] Instance constantPasswordProvider_getPassword :
  passwordProvider constantPasswordProvider :=
  {| getPassword cpp user := (cpp_password cpp, None) |}.

Record md5ConstantPasswordProvider : Type := { md5cpp_password : list byte }.

#[export] Instance md5ConstantPasswordProvider_getPassword `{md5} :
  passwordProvider md5ConstantPasswordProvider :=
  {| getPassword cpp user :=
       let pu := md5cpp_password cpp ++ bytes_of user in
       let puHash := md5_Sum pu in
       (puHash, None) |}.

(** What an authenticator runs against: the client connection and the
    bytes the system's secure random source will deliver next. *)
Record world (RW : Type) : Type := {
  rw : RW;
  rand_Reader : list byte
}.
Arguments rw {RW} w.
Arguments rand_Reader {RW} w.

Definition rw_Write {RW} `{msgReadWriter RW} (m : msg) : io (world RW) (option error) :=
  call (fun w =>
          let '(err, c) := Write m (rw w) in
          (err, {| rw := c; rand_Reader := rand_Reader w |})).

Definition rw_Read {RW} `{msgReadWriter RW} : io (world RW) (msg * option error) :=
  call (fun w =>
          let '(r, c) := Read (rw w) in
          (r, {| rw := c; rand_Reader := rand_Reader w |})).

(** [rand.Read(b)]: fills [b] from the random source; where the source
    delivers fewer bytes the rest of [b] is left as it was. *)
Definition rand_Read {RW} (b : list byte) : io (world RW) (list byte) :=
  call (fun w =>
          let src := rand_Reader w in
          (firstn (length b) src ++ skipn (length src) b,
           {| rw := rw w; rand_Reader := skipn (length b) src |})).

(** [authOKMsg]: the client is now authenticated. *)
Definition authOKMsg : msg :=
  ["R"; x00; x00; x00; x08; x00; x00; x00; x00]%byte.

(** [getRandomSalt]: a random slice of 4 bytes. *)
Definition getRandomSalt {RW} : io (world RW) (list byte) :=
  let salt := repeat x00 4 in
  let* salt := rand_Read salt in
  ret salt.

(** [extractPassword]: the password starts after the size (4 bytes)
    and lasts until the null terminator; [m[5 : len(m)-1]]. *)
Definition extractPassword (m : msg) : result (list byte) :=
  slice m 5 (Z.of_nat (length m) - 1).

(** [hashWithSalt]: salts the provided md5 hash and hashes the result. *)
Definition hashWithSalt `{md5} (hash salt : list byte) : list byte :=
  let puHash := Sprintf_x hash in
  let puHashSalted := bytes_of puHash ++ salt in
  let finalHash := String.append "md5" (Sprintf_x (md5_Sum puHashSalted)) in
  bytes_of finalHash.

(** [authenticator]: user authentication at the start of a session. *)
Class authenticator (A : Type) : Type := {
  authenticate :
    forall {RW} `{msgReadWriter RW},
      A -> gmap string any -> io (world RW) (bool * option error)
}.

Record noPasswordAuthenticator : Type := {}.

Definition noPassword_authenticate {RW} `{msgReadWriter RW}
    (np : noPasswordAuthenticator) (args : gmap string any)
  : io (world RW) (bool * option error) :=
  let* err := rw_Write authOKMsg in
  ret (true, err).

Record clearTextAuthenticator (P : Type) : Type := { ct_pp : P }.
Arguments ct_pp {P} _.

Definition clearText_authenticate `{msgEncoders} {P} `{passwordProvider P}
    {RW} `{msgReadWriter RW}
    (a : clearTextAuthenticator P) (args : gmap string any)
  : io (world RW) (bool * option error) :=
  let passwordRequest : msg :=
    ["R"; x00; x00; x00; x08; x00; x00; x00; x03]%byte in
  let* err := rw_Write passwordRequest in
  if err is Some _ then ret (false, err) else
  let* (m, err) := rw_Read in
  if err is Some _ then ret (false, err) else
  if negb (Byte.eqb (msg_Type m) "p"%byte) then
    let err := expectedPasswordMessage (msg_Type m) in
    let m := errMsg (WithSeverity (fromErr err) FATAL) in
    let* err := rw_Write m in
    ret (false, err)
  else
  let* user := lift (assert_string (index args "user")) in
  let '(expectedPassword, err) := getPassword (ct_pp a) user in
  let* actualPassword := lift (extractPassword m) in
  if negb (bytes_Equal expectedPassword actualPassword) then
    let err := passwordDidNotMatch user in
    let m := errMsg (WithSeverity (fromErr err) FATAL) in
    let* err := rw_Write m in
    ret (false, err)
  else
  let* err := rw_Write authOKMsg in
  ret (true, err).

Record md5Authenticator (P : Type) : Type := { md5_pp : P }.
Arguments md5_pp {P} _.

Definition md5_authenticate `{msgEncoders} `{md5} {P} `{passwordProvider P}
    {RW} `{msgReadWriter RW}
    (a : md5Authenticator P) (args : gmap string any)
  : io (world RW) (bool * option error) :=
  let passwordRequest : msg :=
    ["R"; x00; x00; x00; x0c; x00; x00; x00; x05]%byte in
  let* salt := getRandomSalt in
  let passwordRequest := passwordRequest ++ salt in
  let* err := rw_Write passwordRequest in
  if err is Some _ then ret (false, err) else
  let* (m, err) := rw_Read in
  if err is Some _ then ret (false, err) else
  if negb (Byte.eqb (msg_Type m) "p"%byte) then
    let err := expectedPasswordMessage (msg_Type m) in
    let m := errMsg (WithSeverity (fromErr err) FATAL) in
    let* err := rw_Write m in
    ret (false, err)
  else
  let* user := lift (assert_string (index args "user")) in
  let '(storedHash, err) := getPassword (md5_pp a) user in
  let expectedHash := hashWithSalt storedHash salt in
  let* actualHash := lift (extractPassword m) in
  if negb (bytes_Equal expectedHash actualHash) then
    let err := passwordDidNotMatch user in
    let m := errMsg (WithSeverity (fromErr err) FATAL) in
    let* err := rw_Write m in
    ret (false, err)
  else
  let* err := rw_Write authOKMsg in
  ret (true, err).

#[export] Instance noPasswordAuthenticator_authenticator :
  authenticator noPasswordAuthenticator :=
  {| authenticate _ _ := noPassword_authenticate |}.

#[export] Instance clearTextAuthenticator_authenticator
    `{msgEncoders} {P} `{passwordProvider P} :
  authenticator (clearTextAuthenticator P) :=
  {| authenticate _ _ := clearText_authenticate |}.

#[export] Instance md5Authenticator_authenticator
    `{msgEncoders} `{md5} {P} `{passwordProvider P} :
  authenticator (md5Authenticator P) :=
  {| authenticate _ _ := md5_authenticate |}.

(** *** query.go *)

(** Parse-tree nodes, by the node type the dispatcher switches on. *)
Inductive Node : Type :=
| VariableShowStmt
| SelectStmt
| InsertStmt
| CreateTableAsStmt
| DeleteStmt
| FetchStmt
| CopyStmt
| UpdateStmt
| OtherNode (tag : string).

Record ParsetreeList : Type := { Statements : list Node }.

(** [parser.Parse] *)
Class parser : Type := { Parse : string -> ParsetreeList * option error }.

(** The values stored in the context handed to the backend. *)
Record context : Type := { ctx_SQL : string; ctx_AST : ParsetreeList }.

(** [driver.Rows]: [Next] populates the provided slice with the next
    row and reports [io.EOF] when there are no more rows. *)
Class Rows (R : Type) : Type := {
  Columns : R -> list string;
  Next : list any -> R -> (option error * list any) * R
}.

(** [driver.Result], together with the outcome of the dynamic check
    [res.(ResultTag)]: the value of [Tag()] when the result implements
    it. *)
Record Result : Type := {
  RowsAffected : Z * option error;
  as_ResultTag : option (string * option error)
}.

(** The session of a query: it writes messages to the client and
    hands statements to the backend. *)
Class session (S R : Type) : Type := {
  session_rw :: msgReadWriter S;
  session_Query : context -> Node -> S -> (R * option error) * S;
  session_Exec : context -> Node -> S -> (Result * option error) * S
}.

Record query : Type := { sql : string; numCols : Z }.

Definition session_Write {S R} `{session S R} (m : msg) : io S (option error) :=
  call (Write m).

(** [for i, v := range row { strings[i] = fmt.Sprintf("%v", v) }];
    an index past the end of [strings] panics. *)
Fixpoint stringify (i : nat) (row : list any) (strings : list string)
  : result (list string) :=
  match row with
  | [] => Return strings
  | v :: row' =>
      if (i <? length strings)%nat
      then stringify (S i) row' (<[i := Sprintf_v v]> strings)
      else Panic IndexOutOfRange
  end.

Record tagger : Type := { tagger_Result : Result; tagger_Node : Node }.

(** [tagger.Tag]: the CommandComplete tag; when none is suitable,
    UPDATE is used instead. *)
Definition tagger_Tag (res : tagger) : string * option error :=
  let '(affected, err) := RowsAffected (tagger_Result res) in
  if err is Some _ then (EmptyString, err) else
  let tag :=
    match tagger_Node res with
    | InsertStmt => "INSERT 0"
    | CreateTableAsStmt => "SELECT"
    | DeleteStmt => "DELETE"
    | FetchStmt => "FETCH"
    | CopyStmt => "COPY"
    | UpdateStmt => "UPDATE"
    | _ => "UPDATE"
    end%string in
  (String.append tag (String.append " " (Sprintf_d affected)), None).

Section Dispatcher.
Context `{msgEncoders} {S R : Type} `{Rows R} `{session S R}.

(** The row loop of [query.Query]; [fuel] bounds the number of
    iterations the model follows. *)
Fixpoint Query_loop (fuel : nat) (rows : R) (row : list any)
    (strings : list string) (count : Z) : io S (option error) :=
  match fuel with
  | O => lift Unfinished
  | Datatypes.S fuel' =>
      let '(err, row, rows) := Next row rows in
      match err with
      | Some e =>
          if is_EOF e then
            let tag := String.append "SELECT " (Sprintf_d count) in
            session_Write (completeMsg tag)
          else
            session_Write (errMsg e)
      | None =>
          let* strings := lift (stringify 0 row strings) in
          let* err := session_Write (dataRowMsg strings) in
          if err is Some _ then ret err else
          let count := wrap64 (count + 1) in
          Query_loop fuel' rows row strings count
      end
  end.

Definition query_Query (fuel : nat) (q : query) (ctx : context) (n : Node)
  : io S (option error) :=
  let* (rows, err) := call (session_Query ctx n) in
  if err is Some e then session_Write (errMsg e) else
  let cols := map (fun col => {| name := col |}) (Columns rows) in
  let* err := session_Write (rowDescriptionMsg cols) in
  if err is Some _ then ret err else
  let count := 0 in
  let row := repeat AnyNil (length cols) in
  let strings := repeat EmptyString (length cols) in
  Query_loop fuel rows row strings count.

Definition query_Exec (q : query) (ctx : context) (n : Node)
  : io S (option error) :=
  let* (res, err) := call (session_Exec ctx n) in
  if err is Some e then session_Write (errMsg e) else
  let '(tag, err) :=
    match as_ResultTag res with
    | Some t => t
    | None => tagger_Tag {| tagger_Result := res; tagger_Node := n |}
    end in
  if err is Some e then session_Write (errMsg e) else
  session_Write (completeMsg tag).

(** The statement loop of [query.Run]. *)
Fixpoint Run_loop (fuel : nat) (q : query) (ctx : context)
    (stmts : list Node) : io S (option error) :=
  match stmts with
  | [] => ret None
  | stmt :: stmts' =>
      let* err :=
        match stmt with
        | VariableShowStmt => query_Query fuel q ctx stmt
        | SelectStmt => query_Query fuel q ctx stmt
        | _ => query_Exec q ctx stmt
        end in
      if err is Some e then session_Write (errMsg e) else
      Run_loop fuel q ctx stmts'
  end.

(** [query.Run]: run the query using the server's queryer. *)
Definition query_Run `{parser} (fuel : nat) (q : query) : io S (option error) :=
  let '(ast, err) := Parse (sql q) in
  if err is Some e then session_Write (errMsg e) else
  let ctx := {| ctx_SQL := sql q; ctx_AST := ast |} in
  Run_loop fuel q ctx (Statements ast).

End Dispatcher.

End pgsrv.

(** ** Package protocol: the transaction buffer *)
Module protocol.

(** [Message]: the messages queued for the client; the buffer only
    asks for their type byte. *)
Class Message (M : Type) : Type := { Type_ : M -> byte }.

(** [Protocol]: reads frontend messages and writes messages to the
    connection. *)
Class Protocol (P F M : Type) : Type := {
  readFrontendMessage : P -> (F * option error) * P;
  write : M -> P -> option error * P
}.

(** [transaction]: a sequence of frontend and backend messages that
    apply only on commit. *)
Record transaction (P F M : Type) : Type := {
  p : P;
  in_ : list F;
  out : list M
}.
Arguments p {P F M} t.
Arguments in_ {P F M} t.
Arguments out {P F M} t.

Section Transaction.
Context {P F M : Type} `{Message M} `{Protocol P F M}.

(** [NextFrontendMessage]: reads the next message into the incoming
    buffer. *)
Definition NextFrontendMessage (t : transaction P F M)
  : (F * option error) * transaction P F M :=
  let '(msg, err, p') := readFrontendMessage (p t) in
  if err is None
  then (msg, err, {| p := p'; in_ := in_ t ++ [msg]; out := out t |})
  else (msg, err, {| p := p'; in_ := in_ t; out := out t |}).

(** [Write]: writes the message into the outgoing buffer. *)
Definition Write (msg : M) (t : transaction P F M) : option error * transaction P F M :=
  if (0 <? Z.of_nat (length (out t)))
     && (if last (out t) is Some m then Byte.eqb (Type_ m) "E"%byte else false)
  then (None, t)
  else (None, {| p := p t; in_ := in_ t; out := out t ++ [msg] |}).

(** The loop of [flush]: [err] is the named result, [out] shrinks
    from the front as messages are written. *)
Fixpoint flush_loop (out : list M) (p : P) (err : option error)
  : option error * P * list M :=
  match out with
  | [] => (err, p, out)
  | m :: out' =>
      let '(err, p) := write m p in
      if err is Some _ then (err, p, out) else flush_loop out' p err
  end.

Definition flush (t : transaction P F M) : option error * transaction P F M :=
  let '(err, p', out') := flush_loop (out t) (p t) None in
  (err, {| p := p'; in_ := in_ t; out := out' |}).

End Transaction.

End protocol.

(** ** The MD5 digest of the standard library (RFC 1321), used to run
    the authenticators on concrete credentials *)
Module MD5.

Definition w32 (z : Z) : Z := z mod 2 ^ 32.

Definition rotl (x c : Z) : Z :=
  w32 (Z.lor (Z.shiftl x c) (Z.shiftr x (32 - c))).

Definition T : list Z :=
  [ 0xd76aa478; 0xe8c7b756; 0x242070db; 0xc1bdceee; 0xf57c0faf; 0x4787c62a; 0xa8304613; 0xfd469501;
    0x698098d8; 0x8b44f7af; 0xffff5bb1; 0x895cd7be; 0x6b901122; 0xfd987193; 0xa679438e; 0x49b40821;
    0xf61e2562; 0xc040b340; 0x265e5a51; 0xe9b6c7aa; 0xd62f105d; 0x02441453; 0xd8a1e681; 0xe7d3fbc8;
    0x21e1cde6; 0xc33707d6; 0xf4d50d87; 0x455a14ed; 0xa9e3e905; 0xfcefa3f8; 0x676f02d9; 0x8d2a4c8a;
    0xfffa3942; 0x8771f681; 0x6d9d6122; 0xfde5380c; 0xa4beea44; 0x4bdecfa9; 0xf6bb4b60; 0xbebfbc70;
    0x289b7ec6; 0xeaa127fa; 0xd4ef3085; 0x04881d05; 0xd9d4d039; 0xe6db99e5; 0x1fa27cf8; 0xc4ac5665;
    0xf4292244; 0x432aff97; 0xab9423a7; 0xfc93a039; 0x655b59c3; 0x8f0ccc92; 0xffeff47d; 0x85845dd1;
    0x6fa87e4f; 0xfe2ce6e0; 0xa3014314; 0x4e0811a1; 0xf7537e82; 0xbd3af235; 0x2ad7d2bb; 0xeb86d391 ].

Definition shifts : list Z :=
  [ 7; 12; 17; 22; 7; 12; 17; 22; 7; 12; 17; 22; 7; 12; 17; 22;
    5; 9; 14; 20; 5; 9; 14; 20; 5; 9; 14; 20; 5; 9; 14; 20;
    4; 11; 16; 23; 4; 11; 16; 23; 4; 11; 16; 23; 4; 11; 16; 23;
    6; 10; 15; 21; 6; 10; 15; 21; 6; 10; 15; 21; 6; 10; 15; 21 ].

Definition not32 (x : Z) : Z := Z.lxor x 0xffffffff.

Record state : Type := { sa : Z; sb : Z; sc : Z; sd : Z }.

Definition init : state :=
  {| sa := 0x67452301; sb := 0xefcdab89; sc := 0x98badcfe; sd := 0x10325476 |}.

(** One of the 64 operations on a block of sixteen 32-bit words. *)
Definition operation (X : list Z) (st : state) (i : nat) : state :=
  let '(a, b, c, d) := (sa st, sb st, sc st, sd st) in
  let '(f, g) :=
    match (i / 16)%nat with
    | 0%nat => (Z.lor (Z.land b c) (Z.land (not32 b) d), i)
    | 1%nat => (Z.lor (Z.land d b) (Z.land (not32 d) c), (5 * i + 1) mod 16)%nat
    | 2%nat => (Z.lxor (Z.lxor b c) d, (3 * i + 5) mod 16)%nat
    | _ => (Z.lxor c (Z.lor b (not32 d)), (7 * i) mod 16)%nat
    end in
  let f := w32 (f + a + nth i T 0 + nth g X 0) in
  {| sa := d; sd := c; sc := b; sb := w32 (b + rotl f (nth i shifts 0)) |}.

Definition block (st : state) (X : list Z) : state :=
  let st' := fold_left (operation X) (seq 0 64) st in
  {| sa := w32 (sa st + sa st'); sb := w32 (sb st + sb st');
     sc := w32 (sc st + sc st'); sd := w32 (sd st + sd st') |}.

(** Little-endian words and back. *)
Fixpoint words (bs : list Z) : list Z :=
  match bs with
  | b0 :: b1 :: b2 :: b3 :: bs' =>
      (b0 + 2 ^ 8 * b1 + 2 ^ 16 * b2 + 2 ^ 24 * b3) :: words bs'
  | _ => []
  end.

Definition unword (n : nat) (w : Z) : list Z :=
  map (fun k => Z.shiftr w (8 * Z.of_nat k) mod 2 ^ 8) (seq 0 n).

Definition pad (bs : list Z) : list Z :=
  let len := Z.of_nat (length bs) in
  let zeros := Z.to_nat ((55 - len) mod 64) in
  bs ++ [0x80] ++ repeat 0 zeros ++ unword 8 (8 * len mod 2 ^ 64).

Fixpoint blocks (n : nat) (ws : list Z) (st : state) : state :=
  match n with
  | O => st
  | S n' => blocks n' (skipn 16 ws) (block st (firstn 16 ws))
  end.

Definition byte_of_Z (z : Z) : byte :=
  default x00 (Byte.of_N (Z.to_N z)).

Definition Sum (data : list byte) : list byte :=
  let bs := pad (map (fun b => Z.of_N (Byte.to_N b)) data) in
  let st := blocks (length bs / 64) (words bs) init in
  map byte_of_Z (unword 4 (sa st) ++ unword 4 (sb st) ++ unword 4 (sc st) ++ unword 4 (sd st)).

End MD5.

(** ** Collaborators used to run the code: a scripted connection, a
    scripted backend and the wire encoders *)
Module Fixtures.
Import pgsrv.

(** A connection: the messages the client will send, the messages
    written so far, and how many writes succeed before the transport
    breaks. *)
Record conn : Type := {
  incoming : list msg;
  sent : list msg;
  writable : nat
}.

Definition conn_Write (m : msg) (c : conn) : option error * conn :=
  match writable c with
  | O => (Some (errorString "broken pipe"), c)
  | S k => (None, {| incoming := incoming c; sent := sent c ++ [m]; writable := k |})
  end.

Definition conn_Read (c : conn) : (msg * option error) * conn :=
  match incoming c with
  | [] => (([], Some io_EOF), c)
  | m :: ms => ((m, None), {| incoming := ms; sent := sent c; writable := writable c |})
  end.

#[export] Instance conn_msgReadWriter : msgReadWriter conn :=
  {| Write := conn_Write; Read := conn_Read |}.

(** The text and the severity of an error, as the error message shows
    them. *)
Fixpoint error_text (e : error) : string :=
  match e with
  | io_EOF => "EOF"
  | errorString s => s
  | fromErr e' => error_text e'
  | WithSeverity e' _ => error_text e'
  end.

Fixpoint error_severity (e : error) : string :=
  match e with
  | WithSeverity _ s => s
  | fromErr e' => error_severity e'
  | _ => "ERROR"
  end.

Definition int16 (n : nat) : list byte :=
  map MD5.byte_of_Z [Z.of_nat n / 2 ^ 8 mod 2 ^ 8; Z.of_nat n mod 2 ^ 8].

Definition int32 (n : nat) : list byte :=
  map MD5.byte_of_Z
    [Z.of_nat n / 2 ^ 24 mod 2 ^ 8; Z.of_nat n / 2 ^ 16 mod 2 ^ 8;
     Z.of_nat n / 2 ^ 8 mod 2 ^ 8; Z.of_nat n mod 2 ^ 8].

(** Modelled from the spec: the framing of a message (the encoders are
    not among the sources): a one-byte type tag, a length field that
    equals 4 + payload length, then the payload. *)
Definition frame (t : byte) (payload : list byte) : msg :=
  t :: int32 (4 + length payload) ++ payload.

Definition cstring (s : string) : list byte := bytes_of s ++ [x00].

#[export] Instance wire : msgEncoders := {|
  errMsg e :=
    frame "E" (["S"%byte] ++ cstring (error_severity e)
               ++ ["M"%byte] ++ cstring (error_text e) ++ [x00]);
  rowDescriptionMsg cols :=
    frame "T" (int16 (length cols)
               ++ flat_map (fun c => cstring (name c) ++ repeat x00 18) cols);
  dataRowMsg strings :=
    frame "D" (int16 (length strings)
               ++ flat_map (fun s => int32 (String.length s) ++ bytes_of s) strings);
  completeMsg tag := frame "C" (cstring tag)
|}.

(** A password response as a client frames it. *)
Definition passwordMsg (password : list byte) : msg :=
  frame "p" (password ++ [x00]).

#[export] Instance crypto_md5 : md5 := {| md5_Sum := MD5.Sum |}.

(** A client that will send [ms], on a healthy connection, with
    [entropy] coming from the random source. *)
Definition client (ms : list msg) (entropy : list byte) : world conn :=
  {| rw := {| incoming := ms; sent := []; writable := 8 |};
     rand_Reader := entropy |}.

(** The connection of [w] after the challenge [request] was written and
    after the response was read. *)
Definition challenged (request : msg) (w : world conn) : conn :=
  snd (conn_Write request (rw w)).

Definition answered (request : msg) (w : world conn) : conn :=
  snd (conn_Read (challenged request w)).

Definition alice : gmap string any := {[ "user"%string := AnyString "alice" ]}.

(** A finite row iterator: the column names and the steps it still has
    to deliver, a row or an error each; after the last step it reports
    [io.EOF]. *)
Record scriptRows : Type := {
  sr_Columns : list string;
  sr_pending : list (list any + error)
}.

Definition scriptRows_Next (dest : list any) (r : scriptRows)
  : (option error * list any) * scriptRows :=
  match sr_pending r with
  | [] => ((Some io_EOF, dest), r)
  | inl values :: steps =>
      ((None, copy dest values), {| sr_Columns := sr_Columns r; sr_pending := steps |})
  | inr e :: steps =>
      ((Some e, dest), {| sr_Columns := sr_Columns r; sr_pending := steps |})
  end.

#[export] Instance scriptRows_Rows : Rows scriptRows :=
  {| Columns := sr_Columns; Next := scriptRows_Next |}.

(** The rows of a result set that is delivered without an error. *)
Definition finiteRows (cols : list string) (rs : list (list any)) : scriptRows :=
  {| sr_Columns := cols; sr_pending := map inl rs |}.

(** A session over a connection whose backend answers from a table. *)
Record testSession : Type := {
  ts_conn : conn;
  ts_query : Node -> scriptRows * option error;
  ts_exec : Node -> Result * option error
}.

Definition ts_with (s : testSession) (c : conn) : testSession :=
  {| ts_conn := c; ts_query := ts_query s; ts_exec := ts_exec s |}.

#[export] Instance testSession_msgReadWriter : msgReadWriter testSession := {|
  Write m s := let '(err, c) := conn_Write m (ts_conn s) in (err, ts_with s c);
  Read s := let '(r, c) := conn_Read (ts_conn s) in (r, ts_with s c)
|}.

#[export] Instance testSession_session : session testSession scriptRows := {|
  session_Query ctx n s := (ts_query s n, s);
  session_Exec ctx n s := (ts_exec s n, s)
|}.

(** A session on the connection [c] whose backend answers every query
    with [answer] and every command with [res]. *)
Definition sessionOn (c : conn) (answer : scriptRows * option error)
    (res : Result * option error) : testSession :=
  {| ts_conn := c; ts_query := fun _ => answer; ts_exec := fun _ => res |}.

Definition healthy : conn := {| incoming := []; sent := []; writable := 8 |}.

Definition people : scriptRows :=
  finiteRows ["id"; "name"]%string
    [[AnyInt 1; AnyString "a"]; [AnyInt 2; AnyString "b"]].

Definition affected (n : Z) : Result :=
  {| RowsAffected := (n, None); as_ResultTag := None |}.

Definition select1 : query := {| sql := "SELECT 1"; numCols := 0 |}.

Definition background : context :=
  {| ctx_SQL := "SELECT 1"; ctx_AST := {| Statements := [SelectStmt] |} |}.

(** A parser that knows one statement. *)
#[export] Instance toyParser : parser := {|
  Parse text :=
    if String.eqb text "SELECT 1"
    then ({| Statements := [SelectStmt] |}, None)
    else ({| Statements := [] |}, Some (errorString "syntax error"))
|}.

(** Messages and a connection for the transaction buffer. *)
Inductive backendMsg : Type :=
| ErrorResponse (text : string)
| DataRow (values : list string)
| CommandComplete (tag : string)
| ReadyForQuery.

#[export] Instance backendMsg_Message : protocol.Message backendMsg := {|
  protocol.Type_ m :=
    match m with
    | ErrorResponse _ => "E"
    | DataRow _ => "D"
    | CommandComplete _ => "C"
    | ReadyForQuery => "Z"
    end%byte
|}.

(** A connection that records what was written and refuses the
    messages whose tag is listed in [refused]. *)
Record pipe : Type := {
  inbox : list string;
  written : list backendMsg;
  refused : list string
}.

Definition pipe_refuses (p : pipe) (m : backendMsg) : bool :=
  match m with
  | CommandComplete tag => existsb (String.eqb tag) (refused p)
  | _ => false
  end.

#[export] Instance pipe_Protocol : protocol.Protocol pipe string backendMsg := {|
  protocol.readFrontendMessage p :=
    match inbox p with
    | [] => ((EmptyString, Some io_EOF), p)
    | f :: fs => ((f, None), {| inbox := fs; written := written p; refused := refused p |})
    end;
  protocol.write m p :=
    if pipe_refuses p m
    then (Some (errorString "write failed"), p)
    else (None, {| inbox := inbox p; written := written p ++ [m]; refused := refused p |})
|}.


Definition emptyPipe (refused : list string) : pipe :=
  {| inbox := []; written := []; refused := refused |}.

(** A transaction buffer on the connection [c] with [q] queued. *)
Definition buffer (c : pipe) (q : list backendMsg)
  : protocol.transaction pipe string backendMsg :=
  {| protocol.p := c; protocol.in_ := []; protocol.out := q |}.

(** A session whose backend fails every query and every command. *)
Definition noRelation : error := errorString "relation does not exist".
Definition denied : error := errorString "permission denied".

Definition failing : testSession :=
  sessionOn healthy (finiteRows [] [], Some noRelation) (affected 0, Some denied).

(** A client of that session that answers the MD5 challenge with a
    response that is not the expected one. *)
Definition intruder : world testSession :=
  {| rw := sessionOn {| incoming := [passwordMsg (bytes_of "md5wrong")];
                        sent := []; writable := 8 |}
             (finiteRows [] [], Some noRelation) (affected 0, Some denied);
     rand_Reader := [x01; x02; x03; x04]%byte |}.

End Fixtures.

(** ** What the properties speak about *)
Module Outcomes.
Import pgsrv.

Section Verdicts.
Context `{msgEncoders} {RW : Type} `{msgReadWriter RW}.

(** The authenticator reports success and sends the authentication-OK
    message. *)
Definition accept : io (world RW) (bool * option error) :=
  let* err := rw_Write authOKMsg in
  ret (true, err).

(** The authenticator reports failure and sends a fatal error message
    that carries the diagnostic [e]. *)
Definition reject_with (e : error) : io (world RW) (bool * option error) :=
  let* err := rw_Write (errMsg (WithSeverity (fromErr e) FATAL)) in
  ret (false, err).

(** The run returned with [ok = true]. *)
Definition accepted (r : result (bool * option error) * world RW) : bool :=
  match fst r with
  | Return (ok, _) => ok
  | _ => false
  end.

(** The run returned with [ok = false]. *)
Definition rejected (r : result (bool * option error) * world RW) : bool :=
  match fst r with
  | Return (ok, _) => negb ok
  | _ => false
  end.

Definition panicked {A} (r : result A * world RW) : bool :=
  match fst r with
  | Panic _ => true
  | _ => false
  end.

End Verdicts.

(** The challenges the authenticators send. *)
Definition clearTextRequest : msg :=
  ["R"; x00; x00; x00; x08; x00; x00; x00; x03]%byte.

Definition md5Request (salt : list byte) : msg :=
  ["R"; x00; x00; x00; x0c; x00; x00; x00; x05]%byte ++ salt.

(** The salt issued when the random source is about to deliver [src]. *)
Definition issued_salt (src : list byte) : list byte :=
  firstn 4 src ++ skipn (length src) (repeat x00 4).

(** The response the MD5 method expects for a stored hash and a salt:
    the text md5 followed by hex(MD5(hex(storedHash) ++ salt)). *)
Definition md5Response `{md5} (storedHash salt : list byte) : list byte :=
  bytes_of
    (String.append "md5"
       (Sprintf_x (md5_Sum (bytes_of (Sprintf_x storedHash) ++ salt)))).

Section Emitted.
Context {S : Type} `{msgReadWriter S}.

(** Writing a sequence of messages in order, up to and including the
    first write that fails; the outcome of the last write attempted. *)
Fixpoint Write_all (ms : list msg) : io S (option error) :=
  match ms with
  | [] => ret None
  | m :: ms' =>
      let* err := call (Write m) in
      if err is Some _ then ret err else Write_all ms'
  end.

End Emitted.

(** The completion tag of a command by statement category, as the
    protocol documents it, for [n] affected rows. *)
Definition commandTag (stmt : Node) (n : Z) : string :=
  match stmt with
  | InsertStmt => String.append "INSERT 0 " (Sprintf_d n)
  | DeleteStmt => String.append "DELETE " (Sprintf_d n)
  | UpdateStmt => String.append "UPDATE " (Sprintf_d n)
  | FetchStmt => String.append "FETCH " (Sprintf_d n)
  | CopyStmt => String.append "COPY " (Sprintf_d n)
  | CreateTableAsStmt => String.append "SELECT " (Sprintf_d n)
  | _ => String.append "UPDATE " (Sprintf_d n)
  end.

Section Buffer.
Import protocol.
Context {P F M : Type} `{Message M} `{Protocol P F M}.

(** What a caller can do with a transaction buffer between its
    creation and its disposal. *)
Inductive op : Type :=
| Enqueue (m : M)
| Flush.

(** The buffer is poisoned: the message queued last is an error. *)
Definition poisoned (t : transaction P F M) : bool :=
  if last (out t) is Some m then Byte.eqb (Type_ m) "E"%byte else false.

Definition apply (t : transaction P F M) (o : op) : transaction P F M :=
  match o with
  | Enqueue m => snd (Write m t)
  | Flush => snd (flush t)
  end.

Definition run (ops : list op) (t : transaction P F M) : transaction P F M :=
  fold_left apply ops t.

(** Nothing in [ops], run from [t], empties the queue: a message that
    is the last of the queue of [t] is still queued after every step. *)
Fixpoint still_queued (ops : list op) (t : transaction P F M) : bool :=
  match ops with
  | [] => true
  | o :: ops' =>
      match out (apply t o) with
      | [] => false
      | _ :: _ => still_queued ops' (apply t o)
      end
  end.

(** The messages [ms] are written one after the other, all with
    success, taking the connection from [p] to [p']. *)
Inductive written_in_order : P -> list M -> P -> Prop :=
| written_none p : written_in_order p [] p
| written_next p m p1 ms p' :
    write m p = (None, p1) ->
    written_in_order p1 ms p' ->
    written_in_order p (m :: ms) p'.

End Buffer.

End Outcomes.

(** ** Further notions used by the properties *)
Module Notions.
Import pgsrv.

(** A client that will send [ms] on a connection that takes [k] more
    writes, with [entropy] coming from the random source. *)
Definition clientOn (k : nat) (ms : list msg) (entropy : list byte)
  : world Fixtures.conn :=
  {| rw := {| Fixtures.incoming := ms; Fixtures.sent := [];
              Fixtures.writable := k |};
     rand_Reader := entropy |}.

(** The value of a hexadecimal digit and the byte two digits stand
    for: the inverse of the verb x on one byte. *)
Definition hexval (c : byte) : N :=
  let n := Byte.to_N c in
  if (n <? 58)%N then (n - 48)%N else (n - 87)%N.

Fixpoint unhex (digits : list byte) : list byte :=
  match digits with
  | hi :: lo :: digits' =>
      default x00 (Byte.of_N (16 * hexval hi + hexval lo)) :: unhex digits'
  | _ => []
  end.

(** A lower-case hexadecimal digit. *)
Definition is_lower_hex (b : byte) : bool :=
  existsb (Byte.eqb b) (bytes_of "0123456789abcdef").

Section Queue.
Import protocol.
Context {M : Type} `{Message M}.

(** No message of the queue stands behind an error message: an error
    message, if there is one, is the last message. *)
Fixpoint error_only_last (q : list M) : bool :=
  match q with
  | [] => true
  | m :: q' =>
      match q' with
      | [] => true
      | _ :: _ => negb (Byte.eqb (Type_ m) "E"%byte) && error_only_last q'
      end
  end.

(** The messages of [ms] up to and including its first error message. *)
Fixpoint through_first_error (ms : list M) : list M :=
  match ms with
  | [] => []
  | m :: ms' =>
      if Byte.eqb (Type_ m) "E"%byte then [m] else m :: through_first_error ms'
  end.

End Queue.

(** The statements that produce rows. *)
Definition is_query (stmt : Node) : bool :=
  match stmt with
  | VariableShowStmt | SelectStmt => true
  | _ => false
  end.

Section Batch.
Context `{msgEncoders} {S R : Type} `{Rows R} `{session S R}.

(** What [query.Run] does with one statement: the query path for the
    statements that produce rows, the command path for the others. *)
Definition dispatch (fuel : nat) (q : query) (ctx : context) (stmt : Node)
  : io S (option error) :=
  if is_query stmt then query_Query fuel q ctx stmt else query_Exec q ctx stmt.

(** The statements [stmts] are dispatched one after the other, each
    returning nil, taking the session from [s] to [s']. *)
Inductive handled (fuel : nat) (q : query) (ctx : context)
  : S -> list Node -> S -> Prop :=
| handled_none s : handled fuel q ctx s [] s
| handled_next s stmt s1 stmts s' :
    dispatch fuel q ctx stmt s = (Return None, s1) ->
    handled fuel q ctx s1 stmts s' ->
    handled fuel q ctx s (stmt :: stmts) s'.

End Batch.

(** A session whose connection takes every message, over a backend
    that answers from a table. *)
Record sinkSession : Type := {
  sunk : list msg;
  sink_query : Node -> Fixtures.scriptRows * option error;
  sink_exec : Node -> Result * option error
}.

#[export] Instance sinkSession_msgReadWriter : msgReadWriter sinkSession := {|
  Write m s :=
    (None, {| sunk := sunk s ++ [m]; sink_query := sink_query s;
              sink_exec := sink_exec s |});
  Read s := (([], Some io_EOF), s)
|}.

#[export] Instance sinkSession_session
  : session sinkSession Fixtures.scriptRows := {|
  session_Query ctx n s := (sink_query s n, s);
  session_Exec ctx n s := (sink_exec s n, s)
|}.

(** The scenarios the further properties are run on. *)
Section Scenarios.
Import Fixtures.

Definition secretPlain : clearTextAuthenticator constantPasswordProvider :=
  {| ct_pp := {| cpp_password := bytes_of "secret" |} |}.

Definition secretHashed : md5Authenticator md5ConstantPasswordProvider :=
  {| md5_pp := {| md5cpp_password := bytes_of "secret" |} |}.

Definition merged : Result :=
  {| RowsAffected := (0, Some denied); as_ResultTag := Some ("MERGE 5"%string, None) |}.

Definition uncounted : Result :=
  {| RowsAffected := (0, Some denied); as_ResultTag := None |}.

Definition interrupted : scriptRows :=
  {| sr_Columns := ["id"; "name"]%string;
     sr_pending :=
       map inl [[AnyInt 1; AnyString "a"]]
       ++ inr noRelation :: [inl [AnyInt 2; AnyString "b"]] |}.

Definition ragged : scriptRows :=
  {| sr_Columns := ["id"; "name"]%string;
     sr_pending := [inl [AnyInt 1; AnyString "a"]; inl [AnyInt 2];
                    inl [AnyInt 3; AnyString "c"; AnyBool true]] |}.

Definition sinking : sinkSession :=
  {| sunk := [];
     sink_query := fun _ => (finiteRows [] [], Some noRelation);
     sink_exec := fun _ => (affected 0, Some denied) |}.

End Scenarios.

End Notions.

(** * Properties *)

(** ** The digest on the test vectors of RFC 1321 *)

Example MD5_empty : Sprintf_x (MD5.Sum []) = "d41d8cd98f00b204e9800998ecf8427e"%string.
Proof. vm_compute. reflexivity. Qed.

Example MD5_abc :
  Sprintf_x (MD5.Sum (bytes_of "abc")) = "900150983cd24fb0d6963f7d28e17f72"%string.
Proof. vm_compute. reflexivity. Qed.

Example MD5_two_blocks :
  Sprintf_x (MD5.Sum (repeat "a"%byte 70)) = "0f5c6c4e740bfcc08c3c26ccb2673d46"%string.
Proof. vm_compute. reflexivity. Qed.


Import pgsrv Fixtures Outcomes.

(** ** The formatting verbs and the slice of the password *)

Example Sprintf_verbs :
  Sprintf_d (-5) = "-5"%string
  /\ Sprintf_d 0 = "0"%string
  /\ Sprintf_x [x0f; xa0]%byte = "0fa0"%string
  /\ Sprintf_c "p"%byte = "p"%string
  /\ String.length (Sprintf_c xe9) = 2%nat
  /\ Sprintf_v (AnyInt 42) = "42"%string
  /\ Sprintf_v (AnyBytes [x01; xff]%byte) = "[1 255]"%string
  /\ Sprintf_v AnyNil = "<nil>"%string.
Proof. repeat split. Qed.

Example wrap64_overflow : wrap64 (2 ^ 63 - 1 + 1) = - 2 ^ 63.
Proof. reflexivity. Qed.

Example extractPassword_secret :
  extractPassword (passwordMsg (bytes_of "secret")) = Return (bytes_of "secret").
Proof. reflexivity. Qed.

Example extractPassword_header_only :
  extractPassword ["p"; x00; x00; x00; x04]%byte = Panic SliceBoundsOutOfRange.
Proof. reflexivity. Qed.

(** ** The password authenticators *)

Lemma bytes_Equal_eq (a b : list byte) : bytes_Equal a b = true <-> a = b.
Proof.
  revert b; induction a as [|x a IH]; intros [|y b]; simpl; try (split; congruence).
  rewrite andb_true_iff, IH. split.
  - intros [Hx ->]. apply Byte.byte_dec_bl in Hx. congruence.
  - intros [= -> ->]. split; [apply Byte.byte_dec_lb|]; reflexivity.
Qed.

Lemma bytes_Equal_neq (a b : list byte) : bytes_Equal a b = false <-> a <> b.
Proof.
  rewrite <- bytes_Equal_eq. destruct (bytes_Equal a b); split; congruence.
Qed.

Lemma extractPassword_short (m : msg) :
  (length m < 6)%nat -> extractPassword m = Panic SliceBoundsOutOfRange.
Proof.
  intros Hlen. unfold extractPassword, slice.
  destruct (5 <=? Z.of_nat (length m) - 1) eqn:E; [apply Z.leb_le in E; lia|].
  reflexivity.
Qed.

Lemma extractPassword_long (m : msg) :
  (6 <= length m)%nat ->
  extractPassword m = Return (firstn (length m - 6) (skipn 5 m)).
Proof.
  intros Hlen. unfold extractPassword, slice.
  replace (5 <=? Z.of_nat (length m) - 1) with true by (symmetry; apply Z.leb_le; lia).
  replace (Z.of_nat (length m) - 1 <=? Z.of_nat (length m)) with true
    by (symmetry; apply Z.leb_le; lia).
  simpl. do 2 f_equal. lia.
Qed.

Section Authenticators.
Context `{msgEncoders} {P : Type} `{passwordProvider P} {RW : Type} `{msgReadWriter RW}.

Lemma clearText_run (a : clearTextAuthenticator P) args w c1 c2 m :
  Write clearTextRequest (rw w) = (None, c1) ->
  Read c1 = ((m, None), c2) ->
  let w2 := {| rw := c2; rand_Reader := rand_Reader w |} in
  clearText_authenticate a args w =
    if negb (Byte.eqb (msg_Type m) "p"%byte)
    then reject_with (expectedPasswordMessage (msg_Type m)) w2
    else
      match assert_string (index args "user") with
      | Return user =>
          match extractPassword m with
          | Return actual =>
              if bytes_Equal (fst (getPassword (ct_pp a) user)) actual
              then accept w2
              else reject_with (passwordDidNotMatch user) w2
          | Panic p => (Panic p, w2)
          | Unfinished => (Unfinished, w2)
          end
      | Panic p => (Panic p, w2)
      | Unfinished => (Unfinished, w2)
      end.
Proof.
  intros Hw Hr w2.
  unfold clearText_authenticate, bind, rw_Write, rw_Read, call, lift.
  fold clearTextRequest. rewrite Hw. cbn [rw rand_Reader]. rewrite Hr.
  destruct (negb (Byte.eqb (msg_Type m) "p")); [reflexivity|].
  destruct (assert_string (index args "user")) as [user| |]; try reflexivity.
  destruct (getPassword (ct_pp a) user) as [expected e] eqn:Hpp.
  destruct (extractPassword m) as [actual| |]; try reflexivity.
  cbn [fst]. destruct (bytes_Equal expected actual); reflexivity.
Qed.

Lemma getRandomSalt_run (w : world RW) :
  getRandomSalt w =
    (Return (issued_salt (rand_Reader w)),
     {| rw := rw w; rand_Reader := skipn 4 (rand_Reader w) |}).
Proof. reflexivity. Qed.

Lemma issued_salt_length (src : list byte) : length (issued_salt src) = 4%nat.
Proof.
  unfold issued_salt. rewrite length_app, length_firstn, length_skipn, repeat_length. lia.
Qed.

Lemma md5_run `{md5} (a : md5Authenticator P) args w c1 c2 m :
  let salt := issued_salt (rand_Reader w) in
  Write (md5Request salt) (rw w) = (None, c1) ->
  Read c1 = ((m, None), c2) ->
  let w2 := {| rw := c2; rand_Reader := skipn 4 (rand_Reader w) |} in
  md5_authenticate a args w =
    if negb (Byte.eqb (msg_Type m) "p"%byte)
    then reject_with (expectedPasswordMessage (msg_Type m)) w2
    else
      match assert_string (index args "user") with
      | Return user =>
          match extractPassword m with
          | Return actual =>
              if bytes_Equal (hashWithSalt (fst (getPassword (md5_pp a) user)) salt) actual
              then accept w2
              else reject_with (passwordDidNotMatch user) w2
          | Panic p => (Panic p, w2)
          | Unfinished => (Unfinished, w2)
          end
      | Panic p => (Panic p, w2)
      | Unfinished => (Unfinished, w2)
      end.
Proof.
  intros salt Hw Hr w2.
  unfold md5_authenticate. unfold bind at 1. rewrite getRandomSalt_run.
  unfold bind, rw_Write, rw_Read, call, lift. cbn [rw rand_Reader].
  fold salt. change (_ ++ salt) with (md5Request salt). rewrite Hw. cbn [rw rand_Reader]. rewrite Hr.
  destruct (negb (Byte.eqb (msg_Type m) "p")); [reflexivity|].
  destruct (assert_string (index args "user")) as [user| |]; try reflexivity.
  destruct (getPassword (md5_pp a) user) as [stored e] eqn:Hpp.
  destruct (extractPassword m) as [actual| |]; try reflexivity.
  cbn [fst]. destruct (bytes_Equal _ actual); reflexivity.
Qed.

Lemma accepted_accept (w : world RW) : accepted (accept w) = true.
Proof.
  unfold accepted, accept, bind, rw_Write, call, ret.
  destruct (Write authOKMsg (rw w)); reflexivity.
Qed.

Lemma rejected_reject_with (e : error) (w : world RW) :
  rejected (reject_with e w) = true /\ accepted (reject_with e w) = false.
Proof.
  unfold rejected, accepted, reject_with, bind, rw_Write, call, ret.
  destruct (Write _ (rw w)); split; reflexivity.
Qed.

Lemma index_user (args : gmap string any) (user : string) :
  args !! "user"%string = Some (AnyString user) ->
  assert_string (index args "user") = Return user.
Proof. intros Hu. unfold index. rewrite Hu. reflexivity. Qed.

Lemma type_p_test (m : msg) :
  negb (Byte.eqb (msg_Type m) "p"%byte) = false <-> msg_Type m = "p"%byte.
Proof.
  rewrite negb_false_iff. split; [apply Byte.byte_dec_bl | apply Byte.byte_dec_lb].
Qed.

Lemma type_not_p_test (m : msg) :
  negb (Byte.eqb (msg_Type m) "p"%byte) = true <-> msg_Type m <> "p"%byte.
Proof.
  rewrite negb_true_iff. split.
  - apply Byte.eqb_false.
  - intros Hne. destruct (Byte.eqb _ _) eqn:E; [|reflexivity].
    apply Byte.byte_dec_bl in E. contradiction.
Qed.

Lemma clearText_credential_cases
    (a : clearTextAuthenticator P) (args : gmap string any) (w : world RW)
    (user : string) (c1 c2 : RW) (m : msg) :
  Write clearTextRequest (rw w) = (None, c1) ->
  Read c1 = ((m, None), c2) ->
  msg_Type m = "p"%byte ->
  args !! "user"%string = Some (AnyString user) ->
  let credential := fst (getPassword (ct_pp a) user) in
  let w2 := {| rw := c2; rand_Reader := rand_Reader w |} in
  (extractPassword m = Return credential ->
   clearText_authenticate a args w = accept w2)
  /\ (forall payload,
        extractPassword m = Return payload -> payload <> credential ->
        clearText_authenticate a args w = reject_with (passwordDidNotMatch user) w2).
Proof.
  intros Hw Hr Hp Hu credential w2.
  pose proof (clearText_run a args w c1 c2 m Hw Hr) as Hrun. cbv zeta in Hrun.
  apply type_p_test in Hp. rewrite Hp, (index_user _ _ Hu) in Hrun.
  fold credential w2 in Hrun. split.
  - intros E. rewrite Hrun, E.
    replace (bytes_Equal credential credential) with true; [reflexivity|].
    symmetry. apply bytes_Equal_eq. reflexivity.
  - intros payload E Hne. rewrite Hrun, E.
    replace (bytes_Equal credential payload) with false; [reflexivity|].
    symmetry. apply bytes_Equal_neq. congruence.
Qed.

Lemma md5_accepts_salted_hash_cases `{md5}
    (a : md5Authenticator P) (args : gmap string any) (w : world RW)
    (user : string) (c1 c2 : RW) (m : msg) :
  let salt := issued_salt (rand_Reader w) in
  Write (md5Request salt) (rw w) = (None, c1) ->
  Read c1 = ((m, None), c2) ->
  args !! "user"%string = Some (AnyString user) ->
  let expected := md5Response (fst (getPassword (md5_pp a) user)) salt in
  let w2 := {| rw := c2; rand_Reader := skipn 4 (rand_Reader w) |} in
  (msg_Type m = "p"%byte -> extractPassword m = Return expected ->
   md5_authenticate a args w = accept w2)
  /\ (forall payload,
        msg_Type m = "p"%byte ->
        extractPassword m = Return payload -> payload <> expected ->
        md5_authenticate a args w = reject_with (passwordDidNotMatch user) w2).
Proof.
  intros salt Hw Hr Hu expected w2.
  pose proof (md5_run a args w c1 c2 m Hw Hr) as Hrun. cbv zeta in Hrun.
  rewrite (index_user _ _ Hu) in Hrun.
  change (hashWithSalt (fst (getPassword (md5_pp a) user)) (issued_salt (rand_Reader w)))
    with expected in Hrun.
  fold w2 in Hrun. split.
  - intros Hp E. apply type_p_test in Hp. rewrite Hrun, Hp, E.
    replace (bytes_Equal expected expected) with true; [reflexivity|].
    symmetry. apply bytes_Equal_eq. reflexivity.
  - intros payload Hp E Hne. apply type_p_test in Hp. rewrite Hrun, Hp, E.
    replace (bytes_Equal expected payload) with false; [reflexivity|].
    symmetry. apply bytes_Equal_neq. congruence.
Qed.

End Authenticators.

Section PasswordAuthentication.
Context `{msgEncoders} `{md5} {P : Type} `{passwordProvider P}
        {RW : Type} `{msgReadWriter RW}.

(** C2. Clear-text authentication.  Once the challenge is written and a
    response of type 'p' is read for the claimed user, the run returns
    ok = true exactly when the bytes extracted from the response are the
    provider's credential, byte for byte; it then sends the
    authentication-OK message.  Every other extracted byte string is
    rejected with the password-mismatch error. *)
Theorem clearText_accepts_iff_credential
    (a : clearTextAuthenticator P) (args : gmap string any) (w : world RW)
    (user : string) (c1 c2 : RW) (m : msg) :
  Write clearTextRequest (rw w) = (None, c1) ->
  Read c1 = ((m, None), c2) ->
  msg_Type m = "p"%byte ->
  args !! "user"%string = Some (AnyString user) ->
  let credential := fst (getPassword (ct_pp a) user) in
  let w2 := {| rw := c2; rand_Reader := rand_Reader w |} in
  (accepted (clearText_authenticate a args w) = true
   <-> extractPassword m = Return credential)
  /\ (extractPassword m = Return credential ->
      clearText_authenticate a args w = accept w2)
  /\ (forall payload,
        extractPassword m = Return payload -> payload <> credential ->
        clearText_authenticate a args w = reject_with (passwordDidNotMatch user) w2
        /\ rejected (clearText_authenticate a args w) = true).
Proof.
  intros Hw Hr Hp Hu credential w2.
  destruct (clearText_credential_cases a args w user c1 c2 m Hw Hr Hp Hu)
    as (Hyes & Hno).
  fold credential w2 in Hyes, Hno.
  pose proof (clearText_run a args w c1 c2 m Hw Hr) as Hrun. cbv zeta in Hrun.
  apply type_p_test in Hp. rewrite Hp, (index_user _ _ Hu) in Hrun.
  split; [|split].
  - split.
    + intros Hacc. destruct (extractPassword m) as [payload| |] eqn:E.
      * destruct (List.list_eq_dec Byte.byte_eq_dec payload credential) as [->|Hne]; [reflexivity|].
        rewrite (Hno payload eq_refl Hne) in Hacc.
        destruct (rejected_reject_with (passwordDidNotMatch user) w2) as [_ Hf].
        congruence.
      * rewrite Hrun in Hacc. discriminate Hacc.
      * rewrite Hrun in Hacc. discriminate Hacc.
    + intros E. rewrite (Hyes E). apply accepted_accept.
  - exact Hyes.
  - intros payload E Hne. rewrite (Hno payload E Hne).
    split; [reflexivity|]. apply rejected_reject_with.
Qed.

(** C1. MD5 authentication.  For the salt issued in the challenge, the
    run returns ok = true exactly when the response has type 'p' and the
    bytes extracted from it are the text md5 followed by
    hex(MD5(hex(storedHash) ++ salt)), where storedHash is what the
    provider returns for the claimed user, MD5(password ++ username) for
    the salted constant provider.  Every other extracted byte string is
    rejected with ok = false. *)
Theorem md5_accepts_iff_salted_hash
    (a : md5Authenticator P) (args : gmap string any) (w : world RW)
    (user : string) (c1 c2 : RW) (m : msg) :
  let salt := issued_salt (rand_Reader w) in
  Write (md5Request salt) (rw w) = (None, c1) ->
  Read c1 = ((m, None), c2) ->
  args !! "user"%string = Some (AnyString user) ->
  let storedHash := fst (getPassword (md5_pp a) user) in
  let expected := md5Response storedHash salt in
  let w2 := {| rw := c2; rand_Reader := skipn 4 (rand_Reader w) |} in
  length salt = 4%nat
  /\ (forall password,
        fst (getPassword {| md5cpp_password := password |} user)
        = md5_Sum (password ++ bytes_of user))
  /\ (accepted (md5_authenticate a args w) = true
      <-> msg_Type m = "p"%byte /\ extractPassword m = Return expected)
  /\ (accepted (md5_authenticate a args w) = true ->
      md5_authenticate a args w = accept w2)
  /\ (forall payload,
        msg_Type m = "p"%byte ->
        extractPassword m = Return payload -> payload <> expected ->
        md5_authenticate a args w = reject_with (passwordDidNotMatch user) w2
        /\ rejected (md5_authenticate a args w) = true).
Proof.
  intros salt Hw Hr Hu storedHash expected w2.
  pose proof (md5_run a args w c1 c2 m Hw Hr) as Hrun. cbv zeta in Hrun.
  rewrite (index_user _ _ Hu) in Hrun. fold w2 in Hrun.
  destruct (md5_accepts_salted_hash_cases a args w user c1 c2 m Hw Hr Hu)
    as (Hyes' & Hno).
  fold expected w2 in Hyes', Hno.
  assert (Hiff : accepted (md5_authenticate a args w) = true
                 -> msg_Type m = "p"%byte /\ extractPassword m = Return expected).
  { intros Hacc.
    destruct (negb (Byte.eqb (msg_Type m) "p"%byte)) eqn:Hp.
    - rewrite Hrun in Hacc.
      destruct (rejected_reject_with (expectedPasswordMessage (msg_Type m)) w2).
      congruence.
    - pose proof (proj1 (type_p_test m) Hp) as Hp'. split; [exact Hp'|].
      destruct (extractPassword m) as [payload| |] eqn:E.
      + destruct (List.list_eq_dec Byte.byte_eq_dec payload expected) as [->|Hne];
          [reflexivity|].
        rewrite (Hno payload Hp' eq_refl Hne) in Hacc.
        destruct (rejected_reject_with (passwordDidNotMatch user) w2).
        congruence.
      + rewrite Hrun in Hacc. discriminate Hacc.
      + rewrite Hrun in Hacc. discriminate Hacc. }
  assert (Hyes : msg_Type m = "p"%byte /\ extractPassword m = Return expected ->
                 md5_authenticate a args w = accept w2).
  { intros [Hp E]. apply Hyes'; assumption. }
  split; [apply issued_salt_length|].
  split; [reflexivity|].
  split; [|split].
  - split; [exact Hiff|]. intros Hpe. rewrite (Hyes Hpe). apply accepted_accept.
  - intros Hacc. apply Hyes, Hiff, Hacc.
  - intros payload Hp E Hne. rewrite (Hno payload Hp E Hne).
    split; [reflexivity|]. apply rejected_reject_with.
Qed.

End PasswordAuthentication.

Section UncheckedResponses.
Context `{msgEncoders} `{md5} {RW : Type} `{msgReadWriter RW}.

(** C8. A response whose type is not 'p'.  Each password authenticator,
    once its challenge is written and such a response is read, returns
    ok = false after sending a fatal error whose text names the type
    that was received; that text is never the password-mismatch text.
    The outcome depends neither on the session arguments, nor on the
    provider, nor on the length of the message: the credential
    comparison is not reached. *)
Theorem unexpected_type_rejected_as_violation :
  (forall (P : Type) (pp : passwordProvider P) (ct : clearTextAuthenticator P)
          (args : gmap string any) (w : world RW) (c1 c2 : RW) (m : msg),
      msg_Type m <> "p"%byte ->
      Write clearTextRequest (rw w) = (None, c1) ->
      Read c1 = ((m, None), c2) ->
      clearText_authenticate ct args w
      = reject_with (expectedPasswordMessage (msg_Type m))
          {| rw := c2; rand_Reader := rand_Reader w |}
      /\ rejected (clearText_authenticate ct args w) = true)
  /\ (forall (P : Type) (pp : passwordProvider P) (md : md5Authenticator P)
             (args : gmap string any) (w : world RW) (d1 d2 : RW) (m : msg),
        msg_Type m <> "p"%byte ->
        Write (md5Request (issued_salt (rand_Reader w))) (rw w) = (None, d1) ->
        Read d1 = ((m, None), d2) ->
        md5_authenticate md args w
        = reject_with (expectedPasswordMessage (msg_Type m))
            {| rw := d2; rand_Reader := skipn 4 (rand_Reader w) |}
        /\ rejected (md5_authenticate md args w) = true)
  /\ (forall t : byte,
        expectedPasswordMessage t
        = errorString
            (String.append "expected password response, got message type "
               (Sprintf_c t)))
  /\ (forall (t : byte) (user : string),
        expectedPasswordMessage t <> passwordDidNotMatch user).
Proof.
  split; [|split; [|split]].
  - intros P pp ct args w c1 c2 m Hp Hw Hr. apply type_not_p_test in Hp.
    pose proof (clearText_run ct args w c1 c2 m Hw Hr) as Hrun.
    cbv zeta in Hrun. rewrite Hp in Hrun. rewrite Hrun.
    split; [reflexivity | apply rejected_reject_with].
  - intros P pp md args w d1 d2 m Hp Hw Hr. apply type_not_p_test in Hp.
    pose proof (md5_run md args w d1 d2 m Hw Hr) as Hrun.
    cbv zeta in Hrun. rewrite Hp in Hrun. rewrite Hrun.
    split; [reflexivity | apply rejected_reject_with].
  - intros t. reflexivity.
  - intros t user. unfold expectedPasswordMessage, passwordDidNotMatch.
    simpl. discriminate.
Qed.

(** C9. [extractPassword] slices the message at offset 5 up to its last
    byte without a length check: the slice is in bounds exactly for
    messages of at least 6 bytes.  Each password authenticator hands
    every response of type 'p' to it unchecked: a response shorter than
    6 bytes makes it panic with a slice bound out of range, after the
    challenge was sent. *)
Theorem extractPassword_needs_six_bytes :
  (forall m : msg,
      extractPassword m
      = if (6 <=? length m)%nat
        then Return (firstn (length m - 6) (skipn 5 m))
        else Panic SliceBoundsOutOfRange)
  /\ (forall (P : Type) (pp : passwordProvider P) (ct : clearTextAuthenticator P)
             (args : gmap string any) (w : world RW) (user : string)
             (c1 c2 : RW) (m : msg),
        msg_Type m = "p"%byte ->
        (length m < 6)%nat ->
        args !! "user"%string = Some (AnyString user) ->
        Write clearTextRequest (rw w) = (None, c1) ->
        Read c1 = ((m, None), c2) ->
        clearText_authenticate ct args w
        = (Panic SliceBoundsOutOfRange,
           {| rw := c2; rand_Reader := rand_Reader w |}))
  /\ (forall (P : Type) (pp : passwordProvider P) (md : md5Authenticator P)
             (args : gmap string any) (w : world RW) (user : string)
             (d1 d2 : RW) (m : msg),
        msg_Type m = "p"%byte ->
        (length m < 6)%nat ->
        args !! "user"%string = Some (AnyString user) ->
        Write (md5Request (issued_salt (rand_Reader w))) (rw w) = (None, d1) ->
        Read d1 = ((m, None), d2) ->
        md5_authenticate md args w
        = (Panic SliceBoundsOutOfRange,
           {| rw := d2; rand_Reader := skipn 4 (rand_Reader w) |})).
Proof.
  split; [|split].
  - intros m. destruct (6 <=? length m)%nat eqn:E.
    + apply extractPassword_long. apply Nat.leb_le. exact E.
    + apply extractPassword_short. apply Nat.leb_gt. exact E.
  - intros P pp ct args w user c1 c2 m Hp Hlen Hu Hw Hr.
    pose proof (clearText_run ct args w c1 c2 m Hw Hr) as Hrun.
    cbv zeta in Hrun. apply type_p_test in Hp.
    rewrite Hp, (index_user _ _ Hu), (extractPassword_short m Hlen) in Hrun.
    exact Hrun.
  - intros P pp md args w user d1 d2 m Hp Hlen Hu Hw Hr.
    pose proof (md5_run md args w d1 d2 m Hw Hr) as Hrun.
    cbv zeta in Hrun. apply type_p_test in Hp.
    rewrite Hp, (index_user _ _ Hu), (extractPassword_short m Hlen) in Hrun.
    exact Hrun.
Qed.

End UncheckedResponses.

(** The empty password is accepted when the credential is empty. *)
Lemma clearText_accepts_iff_credential_witness :
  let a := {| ct_pp := {| cpp_password := [] |} |} in
  let w := client [passwordMsg []] [] in
  extractPassword (passwordMsg []) = Return []
  /\ accepted (clearText_authenticate a alice w) = true
  /\ clearText_authenticate a alice w
     = accept {| rw := answered clearTextRequest w; rand_Reader := [] |}.
Proof.
  intros a w.
  assert (Hw : Write clearTextRequest (rw w) = (None, challenged clearTextRequest w))
    by (vm_compute; reflexivity).
  assert (Hr : Read (challenged clearTextRequest w)
               = ((passwordMsg [], None), answered clearTextRequest w))
    by (vm_compute; reflexivity).
  assert (Hp : msg_Type (passwordMsg []) = "p"%byte) by reflexivity.
  assert (Hu : alice !! "user"%string = Some (AnyString "alice"))
    by (vm_compute; reflexivity).
  assert (He : extractPassword (passwordMsg []) = Return []) by reflexivity.
  destruct (clearText_accepts_iff_credential a alice w "alice" _ _ _ Hw Hr Hp Hu)
    as (Hiff & Hyes & _).
  split; [exact He|]. split; [apply Hiff; exact He | apply Hyes; exact He].
Defined.

Lemma md5_accepts_iff_salted_hash_witness :
  let a := {| md5_pp := {| md5cpp_password := bytes_of "secret" |} |} in
  let salt := [x01; x02; x03; x04]%byte in
  let response := bytes_of "md598a0412b9c31436fc53776e863350083" in
  let w := client [passwordMsg response] (salt ++ [x05]%byte) in
  issued_salt (rand_Reader w) = salt
  /\ md5Response (MD5.Sum (bytes_of "secret" ++ bytes_of "alice")) salt = response
  /\ accepted (md5_authenticate a alice w) = true.
Proof.
  intros a salt response w.
  assert (Hw : Write (md5Request (issued_salt (rand_Reader w))) (rw w)
               = (None, challenged (md5Request salt) w))
    by (vm_compute; reflexivity).
  assert (Hr : Read (challenged (md5Request salt) w)
               = ((passwordMsg response, None), answered (md5Request salt) w))
    by (vm_compute; reflexivity).
  assert (Hu : alice !! "user"%string = Some (AnyString "alice"))
    by (vm_compute; reflexivity).
  destruct (md5_accepts_iff_salted_hash a alice w "alice" _ _ _ Hw Hr Hu)
    as (_ & _ & Hiff & _).
  split; [reflexivity|]. split; [vm_compute; reflexivity|].
  apply Hiff. split; vm_compute; reflexivity.
Defined.

(** A client that answers the clear-text challenge with a message of
    type 'X' and a client that answers the MD5 challenge with a query. *)
Lemma unexpected_type_rejected_as_violation_witness :
  let ct := {| ct_pp := {| cpp_password := bytes_of "secret" |} |} in
  let md := {| md5_pp := {| md5cpp_password := bytes_of "secret" |} |} in
  let x := frame "X" (cstring "secret") in
  let q := frame "Q" (cstring "select 1") in
  let w := client [x] [] in
  let w' := client [q] [x01; x02; x03; x04]%byte in
  rejected (clearText_authenticate ct alice w) = true
  /\ sent (rw (snd (clearText_authenticate ct alice w)))
     = [clearTextRequest;
        errMsg (WithSeverity (fromErr (expectedPasswordMessage "X"%byte)) FATAL)]
  /\ rejected (md5_authenticate md alice w') = true.
Proof.
  intros ct md x q w w'.
  destruct (unexpected_type_rejected_as_violation (RW := conn))
    as (Hct & Hmd & _ & _).
  destruct (Hct _ _ ct alice w (challenged clearTextRequest w)
              (answered clearTextRequest w) x) as [Hrun Hrej];
    [vm_compute; discriminate | vm_compute; reflexivity .. | ].
  destruct (Hmd _ _ md alice w'
              (challenged (md5Request (issued_salt (rand_Reader w'))) w')
              (answered (md5Request (issued_salt (rand_Reader w'))) w') q)
    as [_ Hrej'];
    [vm_compute; discriminate | vm_compute; reflexivity .. | ].
  split; [exact Hrej|]. split; [|exact Hrej'].
  rewrite Hrun. vm_compute. reflexivity.
Defined.

(** A password response that is only its five-byte header. *)
Lemma extractPassword_needs_six_bytes_witness :
  let ct := {| ct_pp := {| cpp_password := bytes_of "secret" |} |} in
  let md := {| md5_pp := {| md5cpp_password := bytes_of "secret" |} |} in
  let m := ["p"; x00; x00; x00; x04]%byte in
  let w := client [m] [x01; x02; x03; x04]%byte in
  panicked (clearText_authenticate ct alice w) = true
  /\ panicked (md5_authenticate md alice w) = true.
Proof.
  intros ct md m w.
  destruct (extractPassword_needs_six_bytes (RW := conn)) as (_ & Hct & Hmd).
  assert (Hc : clearText_authenticate ct alice w
               = (Panic SliceBoundsOutOfRange,
                  {| rw := answered clearTextRequest w;
                     rand_Reader := rand_Reader w |})).
  { apply (Hct _ _ ct alice w "alice" (challenged clearTextRequest w)
             (answered clearTextRequest w) m);
      [reflexivity | simpl; lia | vm_compute; reflexivity ..]. }
  assert (Hm : md5_authenticate md alice w
               = (Panic SliceBoundsOutOfRange,
                  {| rw := answered (md5Request (issued_salt (rand_Reader w))) w;
                     rand_Reader := skipn 4 (rand_Reader w) |})).
  { apply (Hmd _ _ md alice w "alice"
             (challenged (md5Request (issued_salt (rand_Reader w))) w)
             (answered (md5Request (issued_salt (rand_Reader w))) w) m);
      [reflexivity | simpl; lia | vm_compute; reflexivity ..]. }
  rewrite Hc, Hm. split; reflexivity.
Defined.

(** ** The transaction buffer *)

Section TransactionBuffer.
Import protocol.
Context {P F M : Type} `{Message M} `{Protocol P F M}.


Lemma Write_poisoned (t : transaction P F M) (m : M) :
  poisoned t = true -> Write m t = (None, t).
Proof.
  unfold Write, poisoned. intros Hp. rewrite Hp.
  destruct (out t) as [|x l]; [discriminate Hp|]. reflexivity.
Qed.

Lemma Write_open (t : transaction P F M) (m : M) :
  poisoned t = false ->
  Write m t = (None, {| p := p t; in_ := in_ t; out := out t ++ [m] |}).
Proof.
  unfold Write, poisoned. intros Hp. rewrite Hp, andb_false_r. reflexivity.
Qed.

Lemma poisoned_Write_error (t : transaction P F M) (e : M) :
  Type_ e = "E"%byte -> poisoned (snd (Write e t)) = true.
Proof.
  intros He. destruct (poisoned t) eqn:Hp.
  - rewrite Write_poisoned by exact Hp. exact Hp.
  - rewrite Write_open by exact Hp. unfold poisoned. cbn [snd out].
    rewrite last_snoc, He. reflexivity.
Qed.

Lemma flush_loop_suffix (q : list M) (c : P) (err : option error) :
  exists done, q = done ++ snd (flush_loop q c err).
Proof.
  revert c err. induction q as [|m q IH]; intros c err; simpl.
  - exists []. reflexivity.
  - destruct (write m c) as [[e|] c'].
    + exists []. reflexivity.
    + destruct (IH c' None) as [done Hd]. exists (m :: done).
      simpl. f_equal. exact Hd.
Qed.

Lemma last_suffix (done rest : list M) :
  rest <> [] -> last (done ++ rest) = last rest.
Proof.
  intros Hne. destruct rest as [|x rest _] using rev_ind; [contradiction|].
  rewrite app_assoc, !last_snoc. reflexivity.
Qed.

Lemma poisoned_flush (t : transaction P F M) :
  poisoned t = true -> out (snd (flush t)) <> [] -> poisoned (snd (flush t)) = true.
Proof.
  unfold poisoned, flush. intros Hp Hne.
  destruct (flush_loop_suffix (out t) (p t) None) as [done Hd].
  destruct (flush_loop (out t) (p t) None) as [[e c] q]. cbn [snd out] in *.
  rewrite Hd, last_suffix in Hp by exact Hne. exact Hp.
Qed.

Lemma poisoned_run (ops : list op) (t : transaction P F M) :
  poisoned t = true -> still_queued ops t = true -> poisoned (run ops t) = true.
Proof.
  revert t. induction ops as [|o ops IH]; intros t Hp Hq; [exact Hp|].
  simpl in Hq. unfold run. simpl. fold (run ops (apply t o)).
  destruct (out (apply t o)) as [|x l] eqn:Ho; [discriminate Hq|].
  apply IH; [|exact Hq].
  destruct o as [m|]; simpl in *.
  - rewrite Write_poisoned by exact Hp. exact Hp.
  - apply poisoned_flush; [exact Hp|]. rewrite Ho. discriminate.
Qed.

Lemma flush_loop_nil_empties (q : list M) (c : P) :
  fst (fst (flush_loop q c None)) = None -> snd (flush_loop q c None) = [].
Proof.
  revert c. induction q as [|m q IH]; intros c; simpl; [reflexivity|].
  destruct (write m c) as [[e|] c']; [discriminate | apply IH].
Qed.

Lemma flush_nil_empties (t : transaction P F M) :
  fst (flush t) = None -> out (snd (flush t)) = [].
Proof.
  unfold flush. pose proof (flush_loop_nil_empties (out t) (p t)) as Hl.
  destruct (flush_loop (out t) (p t) None) as [[e c] q]. exact Hl.
Qed.

(** C3, as the code has it.  Once an error message (type 'E') has been
    enqueued, every later enqueue is a silent no-op that leaves the
    buffer as it was, for as long as the error message is still queued,
    that is, until a flush has written the queue out down to and
    including it.  After a flush that completes the queue is empty and
    the same buffer takes the next message. *)
Theorem enqueue_dropped_while_error_queued
    (t : transaction P F M) (e : M) (ops : list op) (m : M) :
  Type_ e = "E"%byte ->
  still_queued ops (snd (Write e t)) = true ->
  let t' := run ops (snd (Write e t)) in
  Write m t' = (None, t')
  /\ (fst (flush t') = None -> out (snd (Write m (snd (flush t')))) = [m]).
Proof.
  intros He Hq t'. split.
  - apply Write_poisoned, poisoned_run; [|exact Hq].
    apply poisoned_Write_error, He.
  - intros Hnil. apply flush_nil_empties in Hnil.
    rewrite Write_open by (unfold poisoned; rewrite Hnil; reflexivity).
    cbn [snd out]. rewrite Hnil. reflexivity.
Qed.

(** C10. Enqueueing never fails: [Write] returns nil for every buffer
    and every message, whether the message was appended or, the buffer
    being poisoned, dropped. *)
Theorem Write_returns_nil (t : transaction P F M) (m : M) :
  fst (Write m t) = None
  /\ out (snd (Write m t)) = (if poisoned t then out t else out t ++ [m])
  /\ p (snd (Write m t)) = p t
  /\ in_ (snd (Write m t)) = in_ t.
Proof.
  destruct (poisoned t) eqn:Hp.
  - rewrite Write_poisoned by exact Hp. repeat split.
  - rewrite Write_open by exact Hp. repeat split.
Qed.

Lemma flush_loop_spec (q : list M) (c : P) :
  exists done rest c1,
    q = done ++ rest
    /\ written_in_order c done c1
    /\ match rest with
       | [] => flush_loop q c None = (None, c1, [])
       | b :: _ =>
           exists e c2, write b c1 = (Some e, c2)
                        /\ flush_loop q c None = (Some e, c2, rest)
       end.
Proof.
  revert c. induction q as [|m q IH]; intros c.
  - exists [], [], c. repeat split. constructor.
  - simpl. destruct (write m c) as [[e|] c'] eqn:Hw.
    + exists [], (m :: q), c. repeat split; [constructor|].
      exists e, c'. split; [exact Hw | reflexivity].
    + destruct (IH c') as (done & rest & c1 & Hq & Hord & Hrest).
      exists (m :: done), rest, c1. split; [simpl; f_equal; exact Hq|].
      split; [econstructor; eassumption | exact Hrest].
Qed.

(** C4. [flush] writes the queue from the front: a prefix of the queue
    is written in order, each message with success, and leaves the
    queue; the run ends when the queue is empty, with nil, or at the
    first write that fails, with that failure, and then the message
    whose write failed and all messages behind it stay queued in order.
    For the queue [A; B; C] where writing B fails, [B; C] stays queued
    and the failure of B is returned. *)
Theorem flush_stops_at_first_failure :
  (forall t : transaction P F M,
      exists done rest c1,
        out t = done ++ rest
        /\ written_in_order (p t) done c1
        /\ out (snd (flush t)) = rest
        /\ in_ (snd (flush t)) = in_ t
        /\ match rest with
           | [] => fst (flush t) = None /\ p (snd (flush t)) = c1
           | b :: _ =>
               exists e, write b c1 = (Some e, p (snd (flush t)))
                         /\ fst (flush t) = Some e
           end)
  /\ (forall (c0 c1 c2 : P) (i : list F) (A B C : M) (e : error),
        write A c0 = (None, c1) ->
        write B c1 = (Some e, c2) ->
        flush {| p := c0; in_ := i; out := [A; B; C] |}
        = (Some e, {| p := c2; in_ := i; out := [B; C] |})).
Proof.
  split.
  - intros t. unfold flush.
    destruct (flush_loop_spec (out t) (p t)) as (done & rest & c1 & Hq & Hord & Hrest).
    exists done, rest, c1. split; [exact Hq|]. split; [exact Hord|].
    destruct rest as [|b rest].
    + rewrite Hrest. repeat split.
    + destruct Hrest as (e & c2 & Hw & Hl). rewrite Hl. cbn [fst snd p out in_].
      repeat split. exists e. split; [exact Hw | reflexivity].
  - intros c0 c1 c2 i A B C e HA HB. unfold flush. cbn [out p in_ flush_loop].
    rewrite HA, HB. reflexivity.
Qed.

End TransactionBuffer.

(** ** The query dispatcher *)

Lemma copy_same_length {A} (dst src : list A) :
  length src = length dst -> copy dst src = src.
Proof.
  intros Hlen. unfold copy.
  rewrite <- Hlen, firstn_all, skipn_all2 by lia. apply app_nil_r.
Qed.

Lemma stringify_spec (row : list any) (strings : list string) (i : nat) :
  length strings = (i + length row)%nat ->
  stringify i row strings = Return (firstn i strings ++ map Sprintf_v row).
Proof.
  revert strings i. induction row as [|v row IH]; intros strings i Hlen; simpl in *.
  - rewrite firstn_all2 by lia. rewrite app_nil_r. reflexivity.
  - replace (i <? length strings)%nat with true by (symmetry; apply Nat.ltb_lt; lia).
    rewrite IH by (rewrite length_insert; lia). f_equal.
    rewrite (take_S_r _ _ (Sprintf_v v)) by (apply list_lookup_insert_eq; lia).
    rewrite take_insert_ge by lia. rewrite <- app_assoc. reflexivity.
Qed.

Lemma wrap64_id (z : Z) : - 2 ^ 63 <= z < 2 ^ 63 -> wrap64 z = z.
Proof. intros Hz. unfold wrap64. rewrite Z.mod_small by lia. lia. Qed.

Section QueryDispatcher.
Context `{msgEncoders} {S : Type} `{session S scriptRows}.

Lemma Write_all_returns (ms : list msg) (s : S) :
  exists err s', Write_all ms s = (Return err, s').
Proof.
  revert s. induction ms as [|m ms IH]; intros s; simpl.
  - eexists _, _. reflexivity.
  - unfold bind, call. destruct (Write m s) as [[e|] s'].
    + eexists _, _. reflexivity.
    + apply IH.
Qed.

Lemma Write_all_last (m : msg) (s : S) :
  Write_all [m] s = session_Write m s.
Proof.
  simpl. unfold session_Write, bind, call.
  destruct (Write m s) as [[e|] s']; reflexivity.
Qed.

Lemma Query_loop_finite (cols : list string) (rs : list (list any)) :
  forall (fuel : nat) (row : list any) (strings : list string) (count : Z) (s : S),
    Forall (fun r => length r = length cols) rs ->
    length row = length cols ->
    length strings = length cols ->
    0 <= count ->
    count + Z.of_nat (length rs) < 2 ^ 63 ->
    (length rs < fuel)%nat ->
    Query_loop fuel (finiteRows cols rs) row strings count s
    = Write_all
        (map (fun r => dataRowMsg (map Sprintf_v r)) rs
         ++ [completeMsg
               (String.append "SELECT " (Sprintf_d (count + Z.of_nat (length rs))))])
        s.
Proof.
  induction rs as [|r rs IH]; intros fuel row strings count s Hall Hrow Hstr Hc Hmax Hfuel;
    (destruct fuel as [|fuel]; [simpl in Hfuel; lia|]).
  - cbn [Query_loop Next scriptRows_Rows scriptRows_Next finiteRows sr_pending map
         is_EOF app length].
    rewrite Z.add_0_r. symmetry. apply Write_all_last.
  - inversion Hall as [|? ? Hr Hall']; subst.
    cbn [Query_loop Next scriptRows_Rows scriptRows_Next finiteRows sr_pending
         sr_Columns map app].
    rewrite copy_same_length by congruence.
    rewrite stringify_spec by (simpl; congruence).
    rewrite take_0. cbn [app Write_all]. unfold bind, lift, session_Write, call.
    destruct (Write _ s) as [[e|] s']; [reflexivity|].
    change {| sr_Columns := cols; sr_pending := map inl rs |} with (finiteRows cols rs).
    simpl length in *.
    rewrite wrap64_id by lia.
    rewrite IH; try assumption; try lia.
    + replace (count + 1 + Z.of_nat (length rs))
        with (count + Z.of_nat (Datatypes.S (length rs))) by lia.
      reflexivity.
    + rewrite length_map. exact Hr.
Qed.

End QueryDispatcher.

Section QueryPath.
Context `{msgEncoders} {S : Type} `{session S scriptRows}.

(** C5. The query path.  When the backend reports the columns [cols]
    and a finite iterator of the rows [rs], each as wide as the columns,
    the dispatcher writes one row description with those columns in
    order, then one data row per row, each value printed with the verb
    v, then one completion message whose tag is SELECT followed by the
    number of rows; it stops early only at a write that fails and
    returns that failure.  With no rows the tag is SELECT 0.  The row
    counter is a machine integer, so the number of rows is below 2^63. *)
Theorem query_emits_description_rows_and_tag
    (fuel : nat) (q : query) (ctx : context) (n : Node) (s s1 : S)
    (cols : list string) (rs : list (list any)) :
  session_Query ctx n s = ((finiteRows cols rs, None), s1) ->
  Forall (fun r => length r = length cols) rs ->
  Z.of_nat (length rs) < 2 ^ 63 ->
  (length rs < fuel)%nat ->
  let description := rowDescriptionMsg (map (fun c => {| name := c |}) cols) in
  let dataRows := map (fun r => dataRowMsg (map Sprintf_v r)) rs in
  let tag := String.append "SELECT " (Sprintf_d (Z.of_nat (length rs))) in
  query_Query fuel q ctx n s
  = Write_all (description :: dataRows ++ [completeMsg tag]) s1
  /\ length dataRows = length rs
  /\ (rs = [] -> tag = "SELECT 0"%string /\ dataRows = [])
  /\ (exists err s2, query_Query fuel q ctx n s = (Return err, s2)).
Proof.
  intros Hq Hall Hmax Hfuel description dataRows tag.
  assert (Hrun : query_Query fuel q ctx n s
                 = Write_all (description :: dataRows ++ [completeMsg tag]) s1).
  { unfold query_Query. unfold bind at 1, call at 1. rewrite Hq.
    cbn [Columns scriptRows_Rows finiteRows sr_Columns Write_all].
    fold description. unfold bind, session_Write, call.
    destruct (Write description s1) as [[e|] s2]; [reflexivity|].
    rewrite length_map.
    apply (Query_loop_finite cols rs fuel); try assumption; try lia.
    - apply repeat_length.
    - apply repeat_length. }
  split; [exact Hrun|]. split; [apply length_map|]. split.
  - intros ->. split; reflexivity.
  - rewrite Hrun. apply Write_all_returns.
Qed.

(** C6. The command path.  When the backend reports [n] affected rows
    and the result does not describe its own tag, the completion tag is
    the one of the table: INSERT 0 n for an insert, DELETE n, UPDATE n,
    FETCH n, COPY n, SELECT n for create-table-as, and UPDATE n for any
    other statement. *)
Theorem command_tag_by_category
    (q : query) (ctx : context) (stmt : Node) (s s1 : S) (res : Result) (n : Z) :
  session_Exec ctx stmt s = ((res, None), s1) ->
  as_ResultTag res = None ->
  RowsAffected res = (n, None) ->
  query_Exec q ctx stmt s = session_Write (completeMsg (commandTag stmt n)) s1
  /\ tagger_Tag {| tagger_Result := res; tagger_Node := stmt |}
     = (commandTag stmt n, None)
  /\ commandTag InsertStmt n = String.append "INSERT 0 " (Sprintf_d n)
  /\ commandTag DeleteStmt n = String.append "DELETE " (Sprintf_d n)
  /\ commandTag UpdateStmt n = String.append "UPDATE " (Sprintf_d n)
  /\ commandTag FetchStmt n = String.append "FETCH " (Sprintf_d n)
  /\ commandTag CopyStmt n = String.append "COPY " (Sprintf_d n)
  /\ commandTag CreateTableAsStmt n = String.append "SELECT " (Sprintf_d n)
  /\ (forall kind, commandTag (OtherNode kind) n = String.append "UPDATE " (Sprintf_d n)).
Proof.
  intros He Htag Hn.
  assert (Ht : tagger_Tag {| tagger_Result := res; tagger_Node := stmt |}
               = (commandTag stmt n, None)).
  { unfold tagger_Tag. cbn [tagger_Result tagger_Node]. rewrite Hn.
    destruct stmt; reflexivity. }
  split; [|split; [exact Ht|repeat split]].
  unfold query_Exec. unfold bind at 1, call at 1. rewrite He, Htag, Ht.
  reflexivity.
Qed.

End QueryPath.

Lemma query_emits_description_rows_and_tag_witness :
  let s := sessionOn healthy (people, None) (affected 0, None) in
  fst (query_Query 3 select1 background SelectStmt s) = Return None
  /\ sent (ts_conn (snd (query_Query 3 select1 background SelectStmt s)))
     = [rowDescriptionMsg [{| name := "id" |}; {| name := "name" |}];
        dataRowMsg ["1"; "a"]%string;
        dataRowMsg ["2"; "b"]%string;
        completeMsg "SELECT 2"].
Proof.
  intros s.
  assert (Hq : session_Query background SelectStmt s
               = ((finiteRows ["id"; "name"]%string
                     [[AnyInt 1; AnyString "a"]; [AnyInt 2; AnyString "b"]], None), s))
    by reflexivity.
  assert (Hall : Forall (fun r : list any => length r = length ["id"; "name"]%string)
                   [[AnyInt 1; AnyString "a"]; [AnyInt 2; AnyString "b"]])
    by (repeat constructor).
  destruct (query_emits_description_rows_and_tag 3 select1 background SelectStmt s s
              _ _ Hq Hall ltac:(simpl; lia) ltac:(simpl; lia)) as (Hrun & _).
  rewrite Hrun. split; vm_compute; reflexivity.
Defined.

Lemma command_tag_by_category_witness :
  let s := sessionOn healthy (people, None) (affected 3, None) in
  tagger_Tag {| tagger_Result := affected 3; tagger_Node := InsertStmt |}
  = ("INSERT 0 3"%string, None)
  /\ sent (ts_conn (snd (query_Exec select1 background InsertStmt s)))
     = [completeMsg "INSERT 0 3"].
Proof.
  intros s.
  assert (He : session_Exec background InsertStmt s = ((affected 3, None), s))
    by reflexivity.
  assert (Hself : as_ResultTag (affected 3) = None) by reflexivity.
  assert (Hn : RowsAffected (affected 3) = (3, None)) by reflexivity.
  destruct (command_tag_by_category select1 background InsertStmt s s (affected 3) 3
              He Hself Hn) as (Hrun & Ht & _).
  rewrite Hrun, Ht. split; vm_compute; reflexivity.
Defined.

Example command_tags :
  commandTag InsertStmt 3 = "INSERT 0 3"%string
  /\ commandTag DeleteStmt 0 = "DELETE 0"%string
  /\ commandTag (OtherNode "VacuumStmt") 5 = "UPDATE 5"%string
  /\ commandTag CreateTableAsStmt 7 = "SELECT 7"%string.
Proof. repeat split. Qed.

(** ** Failures translated into error messages *)

Section TranslatedFailures.
Context `{msgEncoders} `{md5} `{parser} {S : Type} `{session S scriptRows}.

(** C7, as the code has it.  For every failure they translate (a
    credential mismatch, a parse failure, a backend execution error) the
    authenticator and the query dispatcher write one protocol error
    message and return to the caller the outcome of that write: nil when
    the message was written, the authenticator with ok = false.  The
    translated failure itself is not returned, so the statement loop of
    the caller goes on to the next statement without writing a second
    error message.  One implication per failure: a mismatch seen by the
    MD5 authenticator, a mismatch seen by the clear-text authenticator,
    a backend failure on the query path, a backend failure on the
    command path, a parse failure. *)
Theorem failure_written_write_outcome_returned :
  (forall (P : Type) (pp : passwordProvider P) (RW : Type) (channel : msgReadWriter RW)
          (a : md5Authenticator P) (args : gmap string any) (w : world RW)
          (user : string) (c1 c2 : RW) (m : msg) (payload : list byte),
      Write (md5Request (issued_salt (rand_Reader w))) (rw w) = (None, c1) ->
      Read c1 = ((m, None), c2) ->
      msg_Type m = "p"%byte ->
      args !! "user"%string = Some (AnyString user) ->
      extractPassword m = Return payload ->
      payload <> md5Response (fst (getPassword (md5_pp a) user))
                   (issued_salt (rand_Reader w)) ->
      md5_authenticate a args w
      = reject_with (passwordDidNotMatch user)
          {| rw := c2; rand_Reader := skipn 4 (rand_Reader w) |}
      /\ (forall c3,
            Write (errMsg (WithSeverity (fromErr (passwordDidNotMatch user)) FATAL)) c2
            = (None, c3) ->
            md5_authenticate a args w
            = (Return (false, None),
               {| rw := c3; rand_Reader := skipn 4 (rand_Reader w) |})))
  /\ (forall (P : Type) (pp : passwordProvider P) (RW : Type) (channel : msgReadWriter RW)
             (ct : clearTextAuthenticator P) (args : gmap string any) (w : world RW)
             (user : string) (c1 c2 : RW) (m : msg) (payload : list byte),
        Write clearTextRequest (rw w) = (None, c1) ->
        Read c1 = ((m, None), c2) ->
        msg_Type m = "p"%byte ->
        args !! "user"%string = Some (AnyString user) ->
        extractPassword m = Return payload ->
        payload <> fst (getPassword (ct_pp ct) user) ->
        clearText_authenticate ct args w
        = reject_with (passwordDidNotMatch user)
            {| rw := c2; rand_Reader := rand_Reader w |}
        /\ (forall c3,
              Write (errMsg (WithSeverity (fromErr (passwordDidNotMatch user)) FATAL)) c2
              = (None, c3) ->
              clearText_authenticate ct args w
              = (Return (false, None),
                 {| rw := c3; rand_Reader := rand_Reader w |})))
  /\ (forall (fuel : nat) (q : query) (ctx : context) (n : Node) (s s1 : S)
             (rows : scriptRows) (e : error),
        session_Query ctx n s = ((rows, Some e), s1) ->
        query_Query fuel q ctx n s = session_Write (errMsg e) s1
        /\ (forall s2,
              Write (errMsg e) s1 = (None, s2) ->
              query_Query fuel q ctx n s = (Return None, s2)
              /\ (n = SelectStmt \/ n = VariableShowStmt ->
                  forall rest,
                    Run_loop fuel q ctx (n :: rest) s
                    = Run_loop fuel q ctx rest s2)))
  /\ (forall (q : query) (ctx : context) (n : Node) (s s1 : S)
             (res : Result) (e : error),
        session_Exec ctx n s = ((res, Some e), s1) ->
        query_Exec q ctx n s = session_Write (errMsg e) s1
        /\ (forall s2,
              Write (errMsg e) s1 = (None, s2) ->
              query_Exec q ctx n s = (Return None, s2)))
  /\ (forall (fuel : nat) (q : query) (ast : ParsetreeList) (pe : error) (s : S),
        Parse (sql q) = (ast, Some pe) ->
        query_Run fuel q s = session_Write (errMsg pe) s
        /\ (forall s2,
              Write (errMsg pe) s = (None, s2) ->
              query_Run fuel q s = (Return None, s2))).
Proof.
  assert (Hwritten : forall (m : msg) (s s2 : S),
             Write m s = (None, s2) -> session_Write m s = (Return None, s2)).
  { intros m s s2 Hs2. unfold session_Write, call. rewrite Hs2. reflexivity. }
  split; [|split; [|split; [|split]]].
  - intros P pp RW channel a args w user c1 c2 m payload Hw Hr Hp Hu He Hne.
    destruct (md5_accepts_salted_hash_cases a args w user c1 c2 m Hw Hr Hu)
      as (_ & Hno).
    pose proof (Hno payload Hp He Hne) as Hrej. split; [exact Hrej|].
    intros c3 Hc3. rewrite Hrej. unfold reject_with, bind, rw_Write, call, ret.
    cbn [rw rand_Reader]. rewrite Hc3. reflexivity.
  - intros P pp RW channel ct args w user c1 c2 m payload Hw Hr Hp Hu He Hne.
    destruct (clearText_credential_cases ct args w user c1 c2 m Hw Hr Hp Hu)
      as (_ & Hno).
    pose proof (Hno payload He Hne) as Hrej. split; [exact Hrej|].
    intros c3 Hc3. rewrite Hrej. unfold reject_with, bind, rw_Write, call, ret.
    cbn [rw rand_Reader]. rewrite Hc3. reflexivity.
  - intros fuel q ctx n s s1 rows e Hq.
    assert (Hquery : query_Query fuel q ctx n s = session_Write (errMsg e) s1).
    { unfold query_Query. unfold bind at 1, call at 1. rewrite Hq. reflexivity. }
    split; [exact Hquery|]. intros s2 Hs2.
    assert (Hnil : query_Query fuel q ctx n s = (Return None, s2))
      by (rewrite Hquery; apply Hwritten, Hs2).
    split; [exact Hnil|]. intros Hn rest. cbn [Run_loop]. unfold bind at 1.
    destruct Hn as [-> | ->]; rewrite Hnil; reflexivity.
  - intros q ctx n s s1 res e Hx.
    assert (Hexec : query_Exec q ctx n s = session_Write (errMsg e) s1).
    { unfold query_Exec. unfold bind at 1, call at 1. rewrite Hx. reflexivity. }
    split; [exact Hexec|]. intros s2 Hs2. rewrite Hexec. apply Hwritten, Hs2.
  - intros fuel q ast pe s Hparse.
    assert (Hrun : query_Run fuel q s = session_Write (errMsg pe) s).
    { unfold query_Run. rewrite Hparse. reflexivity. }
    split; [exact Hrun|]. intros s2 Hs2. rewrite Hrun. apply Hwritten, Hs2.
Qed.

End TranslatedFailures.

(** ** Runs of the buffer and of the dispatcher *)

(** A flush that fails before the error message keeps the buffer
    poisoned; a flush that completes opens it again. *)
Lemma enqueue_dropped_while_error_queued_witness :
  let e := ErrorResponse "boom" in
  let stuck := buffer (emptyPipe ["B"%string]) [CommandComplete "B"] in
  let ops := [Flush; Enqueue (DataRow ["1"%string]); Flush] in
  let fine := buffer (emptyPipe []) [CommandComplete "B"] in
  let ops' := [Enqueue (DataRow ["1"%string])] in
  protocol.out (run ops (snd (protocol.Write e stuck))) = [CommandComplete "B"; e]
  /\ protocol.Write (DataRow ["2"%string]) (run ops (snd (protocol.Write e stuck)))
     = (None, run ops (snd (protocol.Write e stuck)))
  /\ protocol.out (run ops' (snd (protocol.Write e fine))) = [CommandComplete "B"; e]
  /\ protocol.out
       (snd (protocol.Write (DataRow ["2"%string])
               (snd (protocol.flush (run ops' (snd (protocol.Write e fine)))))))
     = [DataRow ["2"%string]].
Proof.
  intros e stuck ops fine ops'.
  split; [vm_compute; reflexivity|]. split.
  - apply (enqueue_dropped_while_error_queued stuck e ops (DataRow ["2"%string])).
    + reflexivity.
    + vm_compute. reflexivity.
  - split; [vm_compute; reflexivity|].
    apply (enqueue_dropped_while_error_queued fine e ops' (DataRow ["2"%string])).
    + reflexivity.
    + vm_compute. reflexivity.
    + vm_compute. reflexivity.
Defined.

(** C3 as stated fails: a flush that writes the error message out
    leaves an empty queue, and the next enqueue is appended. *)
Lemma enqueue_after_flush_counterexample :
  ~ (forall (t : protocol.transaction pipe string backendMsg)
            (e : backendMsg) (ops : list op) (m : backendMsg),
        protocol.Type_ e = "E"%byte ->
        length (protocol.out (snd (protocol.Write m (run ops (snd (protocol.Write e t))))))
        = length (protocol.out (run ops (snd (protocol.Write e t))))).
Proof.
  intros Hclaim.
  specialize (Hclaim (buffer (emptyPipe []) []) (ErrorResponse "boom") [Flush]
                     (DataRow ["1"%string]) eq_refl).
  vm_compute in Hclaim. discriminate Hclaim.
Qed.

Lemma flush_stops_at_first_failure_witness :
  let c0 := emptyPipe ["B"%string] in
  let A := DataRow ["a"%string] in
  let B := CommandComplete "B" in
  let C := ReadyForQuery in
  protocol.flush (buffer c0 [A; B; C])
  = (Some (errorString "write failed"),
     {| protocol.p := {| inbox := []; written := [A]; refused := ["B"%string] |};
        protocol.in_ := [];
        protocol.out := [B; C] |}).
Proof.
  intros c0 A B C.
  destruct (flush_stops_at_first_failure (P := pipe) (F := string) (M := backendMsg))
    as [_ HABC].
  apply (HABC c0 {| inbox := []; written := [A]; refused := ["B"%string] |}).
  - reflexivity.
  - reflexivity.
Defined.

Lemma failure_written_write_outcome_returned_witness :
  let a := {| md5_pp := {| md5cpp_password := bytes_of "secret" |} |} in
  let ct := {| ct_pp := {| cpp_password := bytes_of "secret" |} |} in
  let w := client [passwordMsg (bytes_of "md5wrong")] [x01; x02; x03; x04]%byte in
  let w' := client [passwordMsg (bytes_of "Secret")] [] in
  fst (md5_authenticate a alice w) = Return (false, None)
  /\ fst (clearText_authenticate ct alice w') = Return (false, None)
  /\ query_Query 1 select1 background SelectStmt failing
     = (Return None,
        sessionOn {| incoming := []; sent := [errMsg noRelation]; writable := 7 |}
          (finiteRows [] [], Some noRelation) (affected 0, Some denied))
  /\ fst (query_Exec select1 background InsertStmt failing) = Return None
  /\ fst (query_Run 1 {| sql := "SELEKT 1"; numCols := 0 |} failing) = Return None.
Proof.
  intros a ct w w'.
  destruct (failure_written_write_outcome_returned (S := testSession))
    as (Hmd5 & Hclear & Hquery & Hexec & Hparse).
  split; [|split; [|split; [|split]]].
  - destruct (Hmd5 _ _ conn _ a alice w "alice"
                (challenged (md5Request (issued_salt (rand_Reader w))) w)
                (answered (md5Request (issued_salt (rand_Reader w))) w)
                (passwordMsg (bytes_of "md5wrong")) (bytes_of "md5wrong"))
      as [_ Hnil];
      [vm_compute; reflexivity .. | vm_compute; discriminate | ].
    erewrite Hnil; [reflexivity | vm_compute; reflexivity].
  - destruct (Hclear _ _ conn _ ct alice w' "alice"
                (challenged clearTextRequest w') (answered clearTextRequest w')
                (passwordMsg (bytes_of "Secret")) (bytes_of "Secret"))
      as [_ Hnil];
      [vm_compute; reflexivity .. | vm_compute; discriminate | ].
    erewrite Hnil; [reflexivity | vm_compute; reflexivity].
  - destruct (Hquery 1%nat select1 background SelectStmt failing failing
                (finiteRows [] []) noRelation) as [_ Hnil]; [reflexivity|].
    apply Hnil. vm_compute. reflexivity.
  - destruct (Hexec select1 background InsertStmt failing failing
                (affected 0) denied) as [_ Hnil]; [reflexivity|].
    transitivity
      (fst (Return (A := option error) None,
            sessionOn {| incoming := []; sent := [errMsg denied]; writable := 7 |}
              (finiteRows [] [], Some noRelation) (affected 0, Some denied)));
      [|reflexivity].
    apply (f_equal fst). apply Hnil. vm_compute. reflexivity.
  - destruct (Hparse 1%nat {| sql := "SELEKT 1"; numCols := 0 |}
                {| Statements := [] |} (errorString "syntax error") failing)
      as [_ Hnil]; [reflexivity|].
    transitivity
      (fst (Return (A := option error) None,
            sessionOn {| incoming := [];
                         sent := [errMsg (errorString "syntax error")];
                         writable := 7 |}
              (finiteRows [] [], Some noRelation) (affected 0, Some denied)));
      [|reflexivity].
    apply (f_equal fst). apply Hnil. vm_compute. reflexivity.
Defined.

(** C7 as stated fails: the dispatcher writes the error message for a
    backend failure and returns nil, not an error. *)
Lemma translated_failure_returned_counterexample :
  ~ (forall (s s1 : testSession) (rows : scriptRows) (e : error)
            (fuel : nat) (q : query) (ctx : context) (n : Node),
        session_Query ctx n s = ((rows, Some e), s1) ->
        exists err s2, query_Query fuel q ctx n s = (Return (Some err), s2)).
Proof.
  intros Hclaim.
  destruct (Hclaim failing failing (finiteRows [] []) noRelation 1%nat select1
                   background SelectStmt eq_refl) as (err & s2 & Hret).
  vm_compute in Hret. discriminate Hret.
Qed.

(** A run of [query.Run] whose statement fails in the backend: one error
    message on the wire, nil returned. *)
Example Run_failing_statement :
  query_Run 1 select1 failing
  = (Return None,
     sessionOn {| incoming := []; sent := [errMsg noRelation]; writable := 7 |}
       (finiteRows [] [], Some noRelation) (affected 0, Some denied)).
Proof. vm_compute. reflexivity. Qed.

(** ** Further properties of the authenticators *)

Import Notions.

Lemma assert_user_missing (args : gmap string any) :
  (forall user, args !! "user"%string <> Some (AnyString user)) ->
  assert_string (index args "user") = Panic InterfaceConversion.
Proof.
  intros Hno. unfold index.
  destruct (args !! "user"%string) as [[| u | | |]|] eqn:E; try reflexivity.
  exfalso. apply (Hno u). reflexivity.
Qed.

Lemma extractPassword_framed (hdr payload : list byte) (z : byte) :
  length hdr = 5%nat -> extractPassword (hdr ++ payload ++ [z]) = Return payload.
Proof.
  intros Hh. rewrite extractPassword_long by (rewrite !length_app; simpl; lia).
  f_equal. rewrite skipn_app, skipn_all2 by lia.
  replace (5 - length hdr)%nat with 0%nat by lia. cbn [app].
  rewrite !length_app. cbn [length].
  replace (length hdr + (length payload + 1) - 6)%nat with (length payload) by lia.
  rewrite drop_0, firstn_app, firstn_all, Nat.sub_diag. cbn [firstn]. apply app_nil_r.
Qed.

Section TransportAndArguments.
Context `{msgEncoders} `{md5} {RW : Type} `{msgReadWriter RW}.

(** X1. When the challenge cannot be written, a password authenticator
    returns ok = false with the error of that write: it reads nothing,
    writes no error message and does not look at the session arguments.
    One implication for the clear-text and one for the MD5
    authenticator. *)
Theorem challenge_write_failure_returned :
  (forall (P : Type) (pp : passwordProvider P) (ct : clearTextAuthenticator P)
          (args : gmap string any) (w : world RW) (c1 : RW) (e : error),
      Write clearTextRequest (rw w) = (Some e, c1) ->
      clearText_authenticate ct args w
      = (Return (false, Some e), {| rw := c1; rand_Reader := rand_Reader w |}))
  /\ (forall (P : Type) (pp : passwordProvider P) (md : md5Authenticator P)
             (args : gmap string any) (w : world RW) (d1 : RW) (e : error),
        Write (md5Request (issued_salt (rand_Reader w))) (rw w) = (Some e, d1) ->
        md5_authenticate md args w
        = (Return (false, Some e),
           {| rw := d1; rand_Reader := skipn 4 (rand_Reader w) |})).
Proof.
  split.
  - intros P pp ct args w c1 e Hc.
    unfold clearText_authenticate, bind, rw_Write, call.
    fold clearTextRequest. rewrite Hc. reflexivity.
  - intros P pp md args w d1 e Hm.
    unfold md5_authenticate. unfold bind at 1. rewrite getRandomSalt_run.
    unfold bind, rw_Write, call. cbn [rw rand_Reader].
    change (_ ++ issued_salt (rand_Reader w))
      with (md5Request (issued_salt (rand_Reader w))).
    rewrite Hm. reflexivity.
Qed.

(** X2. When reading the response fails, a password authenticator
    returns ok = false with the error of the read, whatever message came
    with it; nothing is written after the challenge.  One implication
    for the clear-text and one for the MD5 authenticator. *)
Theorem response_read_failure_returned :
  (forall (P : Type) (pp : passwordProvider P) (ct : clearTextAuthenticator P)
          (args : gmap string any) (w : world RW) (c1 c2 : RW)
          (m : msg) (e : error),
      Write clearTextRequest (rw w) = (None, c1) ->
      Read c1 = ((m, Some e), c2) ->
      clearText_authenticate ct args w
      = (Return (false, Some e), {| rw := c2; rand_Reader := rand_Reader w |}))
  /\ (forall (P : Type) (pp : passwordProvider P) (md : md5Authenticator P)
             (args : gmap string any) (w : world RW) (d1 d2 : RW)
             (m : msg) (e : error),
        Write (md5Request (issued_salt (rand_Reader w))) (rw w) = (None, d1) ->
        Read d1 = ((m, Some e), d2) ->
        md5_authenticate md args w
        = (Return (false, Some e),
           {| rw := d2; rand_Reader := skipn 4 (rand_Reader w) |})).
Proof.
  split.
  - intros P pp ct args w c1 c2 m e Hcw Hcr.
    unfold clearText_authenticate, bind, rw_Write, rw_Read, call.
    fold clearTextRequest. rewrite Hcw. cbn [rw rand_Reader]. rewrite Hcr.
    reflexivity.
  - intros P pp md args w d1 d2 m e Hmw Hmr.
    unfold md5_authenticate. unfold bind at 1. rewrite getRandomSalt_run.
    unfold bind, rw_Write, rw_Read, call. cbn [rw rand_Reader].
    change (_ ++ issued_salt (rand_Reader w))
      with (md5Request (issued_salt (rand_Reader w))).
    rewrite Hmw. cbn [rw rand_Reader]. rewrite Hmr. reflexivity.
Qed.

(** X3. The session arguments must hold the user name as a string under
    the key user: when the key is missing or holds another kind of
    value, a response of type 'p' makes a password authenticator panic
    on the type assertion, before the provider is asked and before the
    password is extracted.  One implication for the clear-text and one
    for the MD5 authenticator. *)
Theorem missing_user_panics :
  (forall (P : Type) (pp : passwordProvider P) (ct : clearTextAuthenticator P)
          (args : gmap string any) (w : world RW) (c1 c2 : RW) (m : msg),
      (forall user, args !! "user"%string <> Some (AnyString user)) ->
      msg_Type m = "p"%byte ->
      Write clearTextRequest (rw w) = (None, c1) ->
      Read c1 = ((m, None), c2) ->
      clearText_authenticate ct args w
      = (Panic InterfaceConversion, {| rw := c2; rand_Reader := rand_Reader w |}))
  /\ (forall (P : Type) (pp : passwordProvider P) (md : md5Authenticator P)
             (args : gmap string any) (w : world RW) (d1 d2 : RW) (m : msg),
        (forall user, args !! "user"%string <> Some (AnyString user)) ->
        msg_Type m = "p"%byte ->
        Write (md5Request (issued_salt (rand_Reader w))) (rw w) = (None, d1) ->
        Read d1 = ((m, None), d2) ->
        md5_authenticate md args w
        = (Panic InterfaceConversion,
           {| rw := d2; rand_Reader := skipn 4 (rand_Reader w) |})).
Proof.
  split.
  - intros P pp ct args w c1 c2 m Hno Hp Hcw Hcr.
    pose proof (clearText_run ct args w c1 c2 m Hcw Hcr) as Hct.
    cbv zeta in Hct. apply type_p_test in Hp.
    rewrite Hp, (assert_user_missing args Hno) in Hct. exact Hct.
  - intros P pp md args w d1 d2 m Hno Hp Hmw Hmr.
    pose proof (md5_run md args w d1 d2 m Hmw Hmr) as Hmd.
    cbv zeta in Hmd. apply type_p_test in Hp.
    rewrite Hp, (assert_user_missing args Hno) in Hmd. exact Hmd.
Qed.

End TransportAndArguments.

Lemma bytes_of_append (a b : string) :
  bytes_of (String.append a b) = bytes_of a ++ bytes_of b.
Proof.
  unfold bytes_of, list_byte_of_string.
  induction a as [|c a IH]; simpl; [reflexivity|]. f_equal. exact IH.
Qed.

Lemma Sprintf_x_hex (bs : list byte) :
  length (bytes_of (Sprintf_x bs)) = (2 * length bs)%nat
  /\ forallb is_lower_hex (bytes_of (Sprintf_x bs)) = true.
Proof.
  induction bs as [|b bs [IHl IHh]]; [split; reflexivity|].
  change (Sprintf_x (b :: bs))
    with (String.append (Sprintf_x [b]) (Sprintf_x bs)).
  rewrite bytes_of_append, length_app, forallb_app, IHl, IHh. split.
  - change (length (bytes_of (Sprintf_x [b]))) with 2%nat. simpl. lia.
  - rewrite andb_true_r. destruct b; reflexivity.
Qed.

Lemma MD5_Sum_length (data : list byte) : length (MD5.Sum data) = 16%nat.
Proof.
  unfold MD5.Sum. cbv zeta. rewrite length_map, !length_app.
  unfold MD5.unword. rewrite !length_map, !length_seq. reflexivity.
Qed.

Lemma skipn_repeat_zero (k n : nat) :
  skipn k (repeat x00 n) = repeat x00 (n - k).
Proof.
  revert k. induction n as [|n IH]; intros [|k]; simpl; try reflexivity.
  apply IH.
Qed.

(** X5. [extractPassword] returns a payload exactly for the messages
    made of five leading bytes, that payload and one trailing byte; it
    looks neither at the type byte, nor at the length field, nor at the
    terminator, nor for a null byte inside the payload. *)
Theorem extractPassword_iff_framed (m : msg) (payload : list byte) :
  extractPassword m = Return payload
  <-> exists (hdr : list byte) (z : byte),
        length hdr = 5%nat /\ m = hdr ++ payload ++ [z].
Proof.
  split.
  - intros He. destruct (Nat.lt_ge_cases (length m) 6) as [Hs|Hl].
    + rewrite extractPassword_short in He by exact Hs. discriminate He.
    + rewrite extractPassword_long in He by exact Hl. injection He as He.
      pose proof (firstn_skipn (length m - 6) (skipn 5 m)) as Hsplit.
      rewrite He in Hsplit.
      assert (Hlast : length (skipn (length m - 6) (skipn 5 m)) = 1%nat)
        by (rewrite !length_skipn; lia).
      destruct (skipn (length m - 6) (skipn 5 m)) as [|z [|z' l]];
        try discriminate Hlast.
      exists (firstn 5 m), z. split.
      * rewrite length_firstn. lia.
      * rewrite Hsplit. symmetry. apply firstn_skipn.
  - intros (hdr & z & Hh & ->). apply extractPassword_framed, Hh.
Qed.

(** X6. [hashWithSalt] always yields the three bytes md5 followed by two
    lower-case hexadecimal digits per byte of the digest, for every
    stored hash and every salt; with the MD5 digest that is 35 bytes. *)
Theorem hashWithSalt_shape `{md5} (hash salt : list byte) :
  exists digits : list byte,
    hashWithSalt hash salt = bytes_of "md5" ++ digits
    /\ length digits
       = (2 * length (md5_Sum (bytes_of (Sprintf_x hash) ++ salt)))%nat
    /\ forallb is_lower_hex digits = true
    /\ length (@hashWithSalt crypto_md5 hash salt) = 35%nat.
Proof.
  exists (bytes_of (Sprintf_x (md5_Sum (bytes_of (Sprintf_x hash) ++ salt)))).
  split; [apply bytes_of_append|]. split; [apply Sprintf_x_hex|].
  split; [apply Sprintf_x_hex|].
  unfold hashWithSalt. cbv zeta. rewrite bytes_of_append, length_app.
  rewrite (proj1 (Sprintf_x_hex _)). cbn [md5_Sum crypto_md5].
  rewrite MD5_Sum_length. reflexivity.
Qed.

Section Acceptance.
Context `{msgEncoders} `{md5} {RW : Type} `{msgReadWriter RW}.


(** X4. ok = true does not say that the client was told: when the
    authentication-OK message cannot be written, an authenticator still
    returns ok = true, together with the error of that write.  One
    implication for each of the three authenticators; the no-password
    one does not look at the session arguments. *)
Theorem ok_true_with_write_error :
  (forall (np : noPasswordAuthenticator) (args : gmap string any)
          (w : world RW) (n1 : RW) (e : error),
      Write authOKMsg (rw w) = (Some e, n1) ->
      noPassword_authenticate np args w
      = (Return (true, Some e), {| rw := n1; rand_Reader := rand_Reader w |}))
  /\ (forall (P : Type) (pp : passwordProvider P) (ct : clearTextAuthenticator P)
             (args : gmap string any) (w : world RW) (user : string)
             (c1 c2 c3 : RW) (m : msg) (e : error),
        args !! "user"%string = Some (AnyString user) ->
        Write clearTextRequest (rw w) = (None, c1) ->
        Read c1 = ((m, None), c2) ->
        msg_Type m = "p"%byte ->
        extractPassword m = Return (fst (getPassword (ct_pp ct) user)) ->
        Write authOKMsg c2 = (Some e, c3) ->
        clearText_authenticate ct args w
        = (Return (true, Some e), {| rw := c3; rand_Reader := rand_Reader w |}))
  /\ (forall (P : Type) (pp : passwordProvider P) (md : md5Authenticator P)
             (args : gmap string any) (w : world RW) (user : string)
             (d1 d2 d3 : RW) (m : msg) (e : error),
        args !! "user"%string = Some (AnyString user) ->
        Write (md5Request (issued_salt (rand_Reader w))) (rw w) = (None, d1) ->
        Read d1 = ((m, None), d2) ->
        msg_Type m = "p"%byte ->
        extractPassword m
        = Return (md5Response (fst (getPassword (md5_pp md) user))
                    (issued_salt (rand_Reader w))) ->
        Write authOKMsg d2 = (Some e, d3) ->
        md5_authenticate md args w
        = (Return (true, Some e),
           {| rw := d3; rand_Reader := skipn 4 (rand_Reader w) |})).
Proof.
  split; [|split].
  - intros np args w n1 e Hn.
    unfold noPassword_authenticate, bind, rw_Write, call. rewrite Hn.
    reflexivity.
  - intros P pp ct args w user c1 c2 c3 m e Hu Hcw Hcr Hcp Hce Hca.
    destruct (clearText_credential_cases ct args w user c1 c2 m Hcw Hcr Hcp Hu)
      as [Hyes _].
    rewrite (Hyes Hce). unfold accept, bind, rw_Write, call.
    cbn [rw rand_Reader]. rewrite Hca. reflexivity.
  - intros P pp md args w user d1 d2 d3 m e Hu Hmw Hmr Hmp Hme Hma.
    destruct (md5_accepts_salted_hash_cases md args w user d1 d2 m Hmw Hmr Hu)
      as [Hyes _].
    rewrite (Hyes Hmp Hme). unfold accept, bind, rw_Write, call.
    cbn [rw rand_Reader]. rewrite Hma. reflexivity.
Qed.

(** X8. [getRandomSalt] always returns four bytes and never fails: it
    takes up to four bytes from the random source and ignores a short
    read, the bytes that were not delivered staying zero. *)
Theorem getRandomSalt_four_bytes (w : world RW) :
  exists salt : list byte,
    getRandomSalt w
    = (Return salt, {| rw := rw w; rand_Reader := skipn 4 (rand_Reader w) |})
    /\ length salt = 4%nat
    /\ salt = firstn 4 (rand_Reader w)
              ++ repeat x00 (4 - length (rand_Reader w)).
Proof.
  exists (issued_salt (rand_Reader w)).
  split; [apply getRandomSalt_run|]. split; [apply issued_salt_length|].
  unfold issued_salt. rewrite skipn_repeat_zero. reflexivity.
Qed.

End Acceptance.

(** ** Further properties of the transaction buffer *)

Section BufferLaws.
Import protocol.
Context {P F M : Type} `{Message M} `{Protocol P F M}.

Lemma error_only_last_snoc (q : list M) (m : M) :
  error_only_last q = true ->
  (if last q is Some x then Byte.eqb (Type_ x) "E"%byte else false) = false ->
  error_only_last (q ++ [m]) = true.
Proof.
  induction q as [|x q IH]; intros Hq Hl; [reflexivity|].
  destruct q as [|y q].
  - simpl in *. rewrite Hl. reflexivity.
  - change (error_only_last ((x :: y :: q) ++ [m]))
      with (negb (Byte.eqb (Type_ x) "E"%byte) && error_only_last ((y :: q) ++ [m])).
    change (error_only_last (x :: y :: q))
      with (negb (Byte.eqb (Type_ x) "E"%byte) && error_only_last (y :: q)) in Hq.
    apply andb_true_iff in Hq as [Hx Hq]. rewrite Hx. apply IH; assumption.
Qed.

Lemma error_only_last_suffix (done rest : list M) :
  error_only_last (done ++ rest) = true -> error_only_last rest = true.
Proof.
  induction done as [|x done IH]; intros Hq; [exact Hq|].
  apply IH. destruct (done ++ rest) as [|y q] eqn:E; [reflexivity|].
  change (error_only_last ((x :: done) ++ rest))
    with (error_only_last (x :: done ++ rest)) in Hq.
  rewrite E in Hq.
  apply andb_true_iff in Hq as [_ Hq]. exact Hq.
Qed.

Lemma error_only_last_apply (t : transaction P F M) (o : op) :
  error_only_last (out t) = true -> error_only_last (out (apply t o)) = true.
Proof.
  intros Hq. destruct o as [m|]; simpl.
  - destruct (poisoned t) eqn:Hp.
    + rewrite Write_poisoned by exact Hp. exact Hq.
    + rewrite Write_open by exact Hp. cbn [snd out].
      apply error_only_last_snoc; assumption.
  - unfold flush.
    destruct (flush_loop_suffix (out t) (p t) None) as [done Hd].
    destruct (flush_loop (out t) (p t) None) as [[e c] q]. cbn [snd out] in *.
    rewrite Hd in Hq. apply (error_only_last_suffix done q Hq).
Qed.

(** X9. In the outgoing queue an error message is never followed by
    another message: every enqueue and every flush keeps that, so it
    holds of every queue built from an empty buffer. *)
Theorem error_message_stays_last (ops : list op) (t : transaction P F M) :
  error_only_last (out t) = true ->
  error_only_last (out (run ops t)) = true.
Proof.
  revert t. induction ops as [|o ops IH]; intros t Hq; [exact Hq|].
  apply (IH (apply t o)). apply error_only_last_apply, Hq.
Qed.

Lemma run_enqueue_poisoned (ms : list M) (t : transaction P F M) :
  poisoned t = true -> run (map Enqueue ms) t = t.
Proof.
  intros Hp. induction ms as [|m ms IH]; [reflexivity|].
  unfold run. simpl. rewrite Write_poisoned by exact Hp. exact IH.
Qed.

(** X10. Enqueueing the messages [ms] one after the other on a buffer
    that is not poisoned appends [ms] up to and including its first
    error message and drops the rest; the connection and the incoming
    log are not touched. *)
Theorem enqueue_all_keeps_through_first_error
    (ms : list M) (t : transaction P F M) :
  poisoned t = false ->
  run (map Enqueue ms) t
  = {| p := p t; in_ := in_ t; out := out t ++ through_first_error ms |}.
Proof.
  revert t. induction ms as [|m ms IH]; intros t Hp.
  - simpl. rewrite app_nil_r. destruct t; reflexivity.
  - unfold run. cbn [map fold_left apply]. rewrite Write_open by exact Hp.
    cbn [snd through_first_error].
    fold (run (map Enqueue ms) {| p := p t; in_ := in_ t; out := out t ++ [m] |}).
    destruct (Byte.eqb (Type_ m) "E"%byte) eqn:Em.
    + apply run_enqueue_poisoned. unfold poisoned. cbn [out].
      rewrite last_snoc. exact Em.
    + rewrite IH by (unfold poisoned; cbn [out]; rewrite last_snoc; exact Em).
      cbn [p in_ out]. rewrite <- app_assoc. reflexivity.
Qed.

(** X11. A flush that returned nil has emptied the queue, and flushing
    an empty queue writes nothing and returns nil: a second flush right
    after a complete one changes nothing. *)
Theorem flush_twice (t : transaction P F M) :
  fst (flush t) = None ->
  out (snd (flush t)) = []
  /\ flush (snd (flush t)) = (None, snd (flush t)).
Proof.
  intros Hnil. pose proof (flush_nil_empties t Hnil) as He.
  split; [exact He|].
  destruct (snd (flush t)) as [c i q]. cbn [out] in He. subst q. reflexivity.
Qed.

(** X12. Flushing resumes where it stopped: when the messages [done]
    can be written in order from the connection [c], reaching [c1],
    flushing the queue [done ++ rest] from [c] is flushing [rest] from
    [c1].  No message is written twice and none is skipped. *)
Theorem flush_resumes
    (c c1 : P) (i : list F) (done rest : list M) :
  written_in_order c done c1 ->
  flush {| p := c; in_ := i; out := done ++ rest |}
  = flush {| p := c1; in_ := i; out := rest |}.
Proof.
  intros Hord. induction Hord as [c|c m c' ms c1 Hw Hord IH]; [reflexivity|].
  rewrite <- IH. unfold flush. cbn [out p in_ app flush_loop]. rewrite Hw.
  reflexivity.
Qed.

(** X13. Reading a frontend message does not touch the outgoing queue:
    the message is appended to the incoming log exactly when the read
    succeeds, and reading commutes with enqueueing. *)
Theorem NextFrontendMessage_leaves_queue (t : transaction P F M) (m : M) :
  out (snd (NextFrontendMessage t)) = out t
  /\ in_ (snd (NextFrontendMessage t))
     = in_ t ++ (if snd (fst (NextFrontendMessage t)) is None
                 then [fst (fst (NextFrontendMessage t))] else [])
  /\ fst (NextFrontendMessage t) = fst (readFrontendMessage (p t))
  /\ snd (Write m (snd (NextFrontendMessage t)))
     = snd (NextFrontendMessage (snd (Write m t))).
Proof.
  assert (Hp : forall t' : transaction P F M,
             poisoned (snd (NextFrontendMessage t')) = poisoned t').
  { intros t'. unfold poisoned, NextFrontendMessage.
    destruct (readFrontendMessage (p t')) as [[f [e|]] c]; reflexivity. }
  split; [|split; [|split]].
  - unfold NextFrontendMessage.
    destruct (readFrontendMessage (p t)) as [[f [e|]] c]; reflexivity.
  - unfold NextFrontendMessage.
    destruct (readFrontendMessage (p t)) as [[f [e|]] c]; cbn [fst snd in_];
      [rewrite app_nil_r|]; reflexivity.
  - unfold NextFrontendMessage.
    destruct (readFrontendMessage (p t)) as [[f [e|]] c]; reflexivity.
  - destruct (poisoned t) eqn:Ht.
    + rewrite !Write_poisoned by (try rewrite Hp; exact Ht). reflexivity.
    + rewrite !Write_open by (try rewrite Hp; exact Ht). cbn [snd].
      unfold NextFrontendMessage. cbn [p in_ out].
      destruct (readFrontendMessage (p t)) as [[f [e|]] c]; reflexivity.
Qed.

End BufferLaws.

(** ** Further properties of the query dispatcher *)

Lemma copy_length {A} (dst src : list A) : length (copy dst src) = length dst.
Proof. unfold copy. rewrite length_app, length_firstn, length_skipn. lia. Qed.

Section Commands.
Context `{msgEncoders} {S R : Type} `{Rows R} `{session S R}.

(** X14. A result that describes its own tag decides the completion
    message: the tag is written as it is, for every statement category
    and whatever the result reports as affected rows. *)
Theorem self_described_tag_verbatim
    (q : query) (ctx : context) (stmt : Node) (s s1 : S)
    (res : Result) (tag : string) :
  session_Exec ctx stmt s = ((res, None), s1) ->
  as_ResultTag res = Some (tag, None) ->
  query_Exec q ctx stmt s = session_Write (completeMsg tag) s1.
Proof.
  intros He Ht. unfold query_Exec. unfold bind at 1, call at 1.
  rewrite He, Ht. reflexivity.
Qed.

(** X15. When the tag cannot be had, because the count of affected rows
    or the self-described tag comes with an error, the command path
    writes the error message for that error and no completion message;
    the tagger then returns the empty tag, whatever the statement. *)
Theorem tag_error_written_instead_of_completion
    (q : query) (ctx : context) (stmt : Node) (s s1 : S)
    (res : Result) (tag : string) (n : Z) (e : error) :
  session_Exec ctx stmt s = ((res, None), s1) ->
  (as_ResultTag res = None /\ RowsAffected res = (n, Some e))
  \/ as_ResultTag res = Some (tag, Some e) ->
  query_Exec q ctx stmt s = session_Write (errMsg e) s1
  /\ (RowsAffected res = (n, Some e) ->
      tagger_Tag {| tagger_Result := res; tagger_Node := stmt |}
      = (EmptyString, Some e)).
Proof.
  intros He Hcase. split.
  - unfold query_Exec. unfold bind at 1, call at 1. rewrite He.
    destruct Hcase as [[Hnone Hn] | Hself].
    + rewrite Hnone. unfold tagger_Tag. cbn [tagger_Result]. rewrite Hn.
      reflexivity.
    + rewrite Hself. reflexivity.
  - intros Hn. unfold tagger_Tag. cbn [tagger_Result]. rewrite Hn. reflexivity.
Qed.

End Commands.

Section RowIteration.
Context `{msgEncoders} {S : Type} `{session S scriptRows}.

Lemma Query_loop_ended (cols : list string) (rs : list (list any))
    (e : error) (rest : list (list any + error)) :
  forall (fuel : nat) (row : list any) (strings : list string) (count : Z) (s : S),
    Forall (fun r => length r = length cols) rs ->
    length row = length cols ->
    length strings = length cols ->
    0 <= count ->
    count + Z.of_nat (length rs) < 2 ^ 63 ->
    (length rs < fuel)%nat ->
    Query_loop fuel
      {| sr_Columns := cols; sr_pending := map inl rs ++ inr e :: rest |}
      row strings count s
    = Write_all
        (map (fun r => dataRowMsg (map Sprintf_v r)) rs
         ++ [if is_EOF e
             then completeMsg
                    (String.append "SELECT "
                       (Sprintf_d (count + Z.of_nat (length rs))))
             else errMsg e])
        s.
Proof.
  induction rs as [|r rs IH]; intros fuel row strings count s Hall Hrow Hstr Hc Hmax Hfuel;
    (destruct fuel as [|fuel]; [simpl in Hfuel; lia|]).
  - cbn [Query_loop Next scriptRows_Rows scriptRows_Next sr_pending map app length].
    rewrite Z.add_0_r, Write_all_last. destruct (is_EOF e); reflexivity.
  - inversion Hall as [|? ? Hr Hall']; subst.
    cbn [Query_loop Next scriptRows_Rows scriptRows_Next sr_pending
         sr_Columns map app].
    rewrite copy_same_length by congruence.
    rewrite stringify_spec by (simpl; congruence).
    rewrite take_0. cbn [app Write_all]. unfold bind, lift, session_Write, call.
    destruct (Write _ s) as [[e'|] s']; [reflexivity|].
    simpl length in *.
    rewrite wrap64_id by lia.
    rewrite IH; try assumption; try lia.
    + replace (count + 1 + Z.of_nat (length rs))
        with (count + Z.of_nat (Datatypes.S (length rs))) by lia.
      reflexivity.
    + rewrite length_map. exact Hr.
Qed.

(** X16. When the row iterator fails after delivering the rows [rs],
    the query path has written the row description and one data row per
    delivered row, and then writes the error message for the failure:
    no completion message follows and the steps left in the iterator
    are not asked for.  An iterator that reports [io.EOF] itself ends
    the result in the regular way, with the tag SELECT n. *)
Theorem iterator_failure_ends_result
    (fuel : nat) (q : query) (ctx : context) (n : Node) (s s1 : S)
    (cols : list string) (rs : list (list any)) (e : error)
    (rest : list (list any + error)) :
  session_Query ctx n s
  = (({| sr_Columns := cols; sr_pending := map inl rs ++ inr e :: rest |}, None), s1) ->
  Forall (fun r => length r = length cols) rs ->
  Z.of_nat (length rs) < 2 ^ 63 ->
  (length rs < fuel)%nat ->
  let description := rowDescriptionMsg (map (fun c => {| name := c |}) cols) in
  let dataRows := map (fun r => dataRowMsg (map Sprintf_v r)) rs in
  let tag := String.append "SELECT " (Sprintf_d (Z.of_nat (length rs))) in
  query_Query fuel q ctx n s
  = Write_all
      (description :: dataRows
       ++ [if is_EOF e then completeMsg tag else errMsg e]) s1.
Proof.
  intros Hq Hall Hmax Hfuel description dataRows tag.
  unfold query_Query. unfold bind at 1, call at 1. rewrite Hq.
  cbn [Columns scriptRows_Rows sr_Columns Write_all].
  fold description. unfold bind, session_Write, call.
  destruct (Write description s1) as [[e'|] s2]; [reflexivity|].
  rewrite length_map.
  apply (Query_loop_ended cols rs e rest fuel); try assumption; try lia.
  - apply repeat_length.
  - apply repeat_length.
Qed.

End RowIteration.

Section NoPanic.
Context `{msgEncoders} `{parser} {S R : Type} `{Rows R} `{session S R}.

Lemma session_Write_returns (m : msg) (s : S) :
  exists err s', session_Write m s = (Return err, s').
Proof.
  unfold session_Write, call. destruct (Write m s) as [err s'].
  exists err, s'. reflexivity.
Qed.





End NoPanic.

Section Batches.
Context `{msgEncoders} `{parser} {S R : Type} `{Rows R} `{session S R}.

Lemma Run_loop_cons (fuel : nat) (q : query) (ctx : context)
    (stmt : Node) (rest : list Node) (s : S) :
  Run_loop fuel q ctx (stmt :: rest) s
  = bind (dispatch fuel q ctx stmt)
      (fun err => if err is Some e then session_Write (errMsg e)
                  else Run_loop fuel q ctx rest) s.
Proof. destruct stmt; reflexivity. Qed.

Lemma Run_loop_handled (fuel : nat) (q : query) (ctx : context)
    (s s1 : S) (done rest : list Node) :
  handled fuel q ctx s done s1 ->
  Run_loop fuel q ctx (done ++ rest) s = Run_loop fuel q ctx rest s1.
Proof.
  intros Hh. induction Hh as [s|s stmt s1 stmts s' Hd Hh IH]; [reflexivity|].
  change ((stmt :: stmts) ++ rest) with (stmt :: (stmts ++ rest)).
  rewrite Run_loop_cons. unfold bind. rewrite Hd. exact IH.
Qed.

(** X18. [query.Run] takes the statements of a batch in order.  Past
    the statements whose handling returned nil it goes on with the rest
    of the batch from the session they left; at the first statement
    whose handling returns an error it writes the error message for
    that error, returns the outcome of that write and leaves the
    statements behind it alone.  A batch handled to its end returns
    nil. *)
Theorem batch_runs_until_first_error
    (fuel : nat) (q : query) (ctx : context) (s s1 : S) (done : list Node) :
  handled fuel q ctx s done s1 ->
  Run_loop fuel q ctx done s = (Return None, s1)
  /\ (forall rest,
        Run_loop fuel q ctx (done ++ rest) s = Run_loop fuel q ctx rest s1)
  /\ (forall stmt rest e s2,
        dispatch fuel q ctx stmt s1 = (Return (Some e), s2) ->
        Run_loop fuel q ctx (done ++ stmt :: rest) s
        = session_Write (errMsg e) s2).
Proof.
  intros Hh. split; [|split].
  - rewrite <- (app_nil_r done). rewrite (Run_loop_handled _ _ _ _ _ _ [] Hh).
    reflexivity.
  - intros rest. apply Run_loop_handled, Hh.
  - intros stmt rest e s2 Hd. rewrite (Run_loop_handled _ _ _ _ _ _ _ Hh).
    rewrite Run_loop_cons. unfold bind. rewrite Hd. reflexivity.
Qed.

Lemma session_Write_nil (m : msg) (s : S) :
  (forall (m' : msg) (s' : S), fst (Write m' s') = None) ->
  exists s', session_Write m s = (Return None, s').
Proof.
  intros Hw. unfold session_Write, call. specialize (Hw m s).
  destruct (Write m s) as [err s']. cbn [fst] in Hw. subst err.
  exists s'. reflexivity.
Qed.

Lemma Query_loop_nil (fuel : nat) :
  (forall (m : msg) (s : S), fst (Write m s) = None) ->
  forall (rows : R) (row : list any) (strings : list string) (count : Z) (s : S)
         (err : option error),
    fst (Query_loop fuel rows row strings count s) = Return err -> err = None.
Proof.
  intros Hw. induction fuel as [|fuel IH]; intros rows row strings count s err;
    [discriminate|].
  cbn [Query_loop]. destruct (Next row rows) as [[e row'] rows'].
  destruct e as [e|].
  - destruct (is_EOF e);
      match goal with
      | |- fst (session_Write ?m s) = _ -> _ =>
          destruct (session_Write_nil m s Hw) as (s' & ->); intros [= <-]; reflexivity
      end.
  - unfold bind at 1, lift. destruct (stringify 0 row' strings) as [strs|p|];
      [|discriminate|discriminate].
    unfold bind.
    destruct (session_Write_nil (dataRowMsg strs) s Hw) as (s' & ->).
    apply IH.
Qed.

Lemma query_Query_nil (fuel : nat) (q : query) (ctx : context) (stmt : Node)
    (s : S) (err : option error) :
  (forall (m : msg) (s' : S), fst (Write m s') = None) ->
  fst (query_Query fuel q ctx stmt s) = Return err -> err = None.
Proof.
  intros Hw. unfold query_Query. unfold bind at 1, call at 1.
  destruct (session_Query ctx stmt s) as [[rows [e|]] s1].
  - destruct (session_Write_nil (errMsg e) s1 Hw) as (s' & ->).
    intros [= <-]. reflexivity.
  - unfold bind.
    destruct (session_Write_nil
                (rowDescriptionMsg
                   (map (fun col => {| name := col |}) (Columns rows))) s1 Hw)
      as (s' & ->).
    apply Query_loop_nil, Hw.
Qed.

Lemma query_Exec_nil (q : query) (ctx : context) (stmt : Node)
    (s : S) (err : option error) :
  (forall (m : msg) (s' : S), fst (Write m s') = None) ->
  fst (query_Exec q ctx stmt s) = Return err -> err = None.
Proof.
  intros Hw. unfold query_Exec. unfold bind, call.
  destruct (session_Exec ctx stmt s) as [[res [e|]] s1].
  - destruct (session_Write_nil (errMsg e) s1 Hw) as (s' & ->).
    intros [= <-]. reflexivity.
  - destruct (match as_ResultTag res with
              | Some t => t
              | None => tagger_Tag {| tagger_Result := res; tagger_Node := stmt |}
              end) as [tag [e|]].
    + destruct (session_Write_nil (errMsg e) s1 Hw) as (s' & ->).
      intros [= <-]. reflexivity.
    + destruct (session_Write_nil (completeMsg tag) s1 Hw) as (s' & ->).
      intros [= <-]. reflexivity.
Qed.

Lemma Run_loop_nil (fuel : nat) (q : query) (ctx : context) (stmts : list Node) :
  (forall (m : msg) (s' : S), fst (Write m s') = None) ->
  forall (s : S) (err : option error),
    fst (Run_loop fuel q ctx stmts s) = Return err -> err = None.
Proof.
  intros Hw. induction stmts as [|stmt stmts IH]; intros s err.
  - intros [= <-]. reflexivity.
  - rewrite Run_loop_cons. unfold bind.
    destruct (dispatch fuel q ctx stmt s) as [[[e|]|p|] s1]; try discriminate.
    + destruct (session_Write_nil (errMsg e) s1 Hw) as (s' & ->).
      intros [= <-]. reflexivity.
    + apply IH.
Qed.

(** X19. The error returned by the dispatcher speaks of the connection
    only: on a session that takes every message, whatever the parser
    and the backend report, [query.Query], [query.Exec] and [query.Run]
    return nil whenever they return. *)
Theorem only_write_failures_returned
    (fuel : nat) (q : query) (ctx : context) (n : Node) (s : S)
    (err : option error) :
  (forall (m : msg) (s' : S), fst (Write m s') = None) ->
  (fst (query_Query fuel q ctx n s) = Return err -> err = None)
  /\ (fst (query_Exec q ctx n s) = Return err -> err = None)
  /\ (fst (query_Run fuel q s) = Return err -> err = None).
Proof.
  intros Hw. split; [apply query_Query_nil, Hw|].
  split; [apply query_Exec_nil, Hw|].
  unfold query_Run. destruct (Parse (sql q)) as [ast [e|]].
  - destruct (session_Write_nil (errMsg e) s Hw) as (s' & ->).
    intros [= <-]. reflexivity.
  - apply Run_loop_nil, Hw.
Qed.

End Batches.

(** ** Runs of the further properties *)

(** The clear-text challenge does not go out on one connection; the
    MD5 challenge does not go out on another. *)
Lemma challenge_write_failure_returned_witness :
  let w := clientOn 0 [passwordMsg (bytes_of "secret")] [] in
  let w' := clientOn 0 [passwordMsg (bytes_of "md5")] [x01; x02; x03; x04]%byte in
  clearText_authenticate secretPlain alice w
  = (Return (false, Some (errorString "broken pipe")), w)
  /\ fst (md5_authenticate secretHashed alice w')
     = Return (false, Some (errorString "broken pipe"))
  /\ incoming (rw (snd (md5_authenticate secretHashed alice w')))
     = [passwordMsg (bytes_of "md5")].
Proof.
  intros w w'.
  destruct (challenge_write_failure_returned (RW := conn)) as [Hct Hmd].
  assert (Hc : clearText_authenticate secretPlain alice w
               = (Return (false, Some (errorString "broken pipe")),
                  {| rw := rw w; rand_Reader := rand_Reader w |})).
  { apply (Hct _ _ secretPlain alice w (rw w) (errorString "broken pipe")).
    vm_compute. reflexivity. }
  assert (Hm : md5_authenticate secretHashed alice w'
               = (Return (false, Some (errorString "broken pipe")),
                  {| rw := rw w'; rand_Reader := skipn 4 (rand_Reader w') |})).
  { apply (Hmd _ _ secretHashed alice w' (rw w') (errorString "broken pipe")).
    vm_compute. reflexivity. }
  rewrite Hc, Hm. repeat split.
Defined.

(** The client hangs up after the challenge. *)
Lemma response_read_failure_returned_witness :
  let w := clientOn 8 [] [] in
  let w' := clientOn 8 [] [x01; x02; x03; x04]%byte in
  clearText_authenticate secretPlain alice w
  = (Return (false, Some io_EOF),
     {| rw := {| incoming := []; sent := [clearTextRequest]; writable := 7 |};
        rand_Reader := [] |})
  /\ fst (md5_authenticate secretHashed alice w') = Return (false, Some io_EOF).
Proof.
  intros w w'.
  destruct (response_read_failure_returned (RW := conn)) as [Hct Hmd].
  assert (Hc : clearText_authenticate secretPlain alice w
               = (Return (false, Some io_EOF),
                  {| rw := challenged clearTextRequest w;
                     rand_Reader := rand_Reader w |})).
  { apply (Hct _ _ secretPlain alice w (challenged clearTextRequest w)
             (challenged clearTextRequest w) [] io_EOF);
      vm_compute; reflexivity. }
  assert (Hm : md5_authenticate secretHashed alice w'
               = (Return (false, Some io_EOF),
                  {| rw := challenged (md5Request (issued_salt (rand_Reader w'))) w';
                     rand_Reader := skipn 4 (rand_Reader w') |})).
  { apply (Hmd _ _ secretHashed alice w'
             (challenged (md5Request (issued_salt (rand_Reader w'))) w')
             (challenged (md5Request (issued_salt (rand_Reader w'))) w') [] io_EOF);
      vm_compute; reflexivity. }
  rewrite Hc, Hm. split; vm_compute; reflexivity.
Defined.

(** No user at all for the clear-text method, a number as the user for
    the MD5 method. *)
Lemma missing_user_panics_witness :
  let w := clientOn 8 [passwordMsg (bytes_of "secret")] [] in
  let w' := clientOn 8 [passwordMsg (bytes_of "md5")] [x01; x02; x03; x04]%byte in
  fst (clearText_authenticate secretPlain ∅ w) = Panic InterfaceConversion
  /\ fst (md5_authenticate secretHashed {[ "user"%string := AnyInt 7 ]} w')
     = Panic InterfaceConversion.
Proof.
  intros w w'.
  destruct (missing_user_panics (RW := conn)) as [Hct Hmd].
  assert (Hc : clearText_authenticate secretPlain ∅ w
               = (Panic InterfaceConversion,
                  {| rw := answered clearTextRequest w;
                     rand_Reader := rand_Reader w |})).
  { apply (Hct _ _ secretPlain ∅ w (challenged clearTextRequest w)
             (answered clearTextRequest w) (passwordMsg (bytes_of "secret")));
      [intros user; vm_compute; discriminate | vm_compute; reflexivity ..]. }
  assert (Hm : md5_authenticate secretHashed {[ "user"%string := AnyInt 7 ]} w'
               = (Panic InterfaceConversion,
                  {| rw := answered (md5Request (issued_salt (rand_Reader w'))) w';
                     rand_Reader := skipn 4 (rand_Reader w') |})).
  { apply (Hmd _ _ secretHashed {[ "user"%string := AnyInt 7 ]} w'
             (challenged (md5Request (issued_salt (rand_Reader w'))) w')
             (answered (md5Request (issued_salt (rand_Reader w'))) w')
             (passwordMsg (bytes_of "md5")));
      [intros user; vm_compute; discriminate | vm_compute; reflexivity ..]. }
  rewrite Hc, Hm. split; reflexivity.
Defined.


(** The connection breaks right before the authentication-OK message;
    the no-password authenticator runs without any session argument. *)
Lemma ok_true_with_write_error_witness :
  let salt := [x0a; x0b; x0c; x0d]%byte in
  let hashed :=
    passwordMsg (md5Response (MD5.Sum (bytes_of "secret" ++ bytes_of "alice")) salt) in
  let w0 := clientOn 0 [] [] in
  let w := clientOn 1 [passwordMsg (bytes_of "secret")] [] in
  let w' := clientOn 1 [hashed] salt in
  fst (noPassword_authenticate Build_noPasswordAuthenticator ∅ w0)
  = Return (true, Some (errorString "broken pipe"))
  /\ fst (clearText_authenticate secretPlain alice w)
     = Return (true, Some (errorString "broken pipe"))
  /\ fst (md5_authenticate secretHashed alice w')
     = Return (true, Some (errorString "broken pipe")).
Proof.
  intros salt hashed w0 w w'.
  destruct (ok_true_with_write_error (RW := conn)) as (Hnp & Hct & Hmd).
  assert (Hn : noPassword_authenticate Build_noPasswordAuthenticator ∅ w0
               = (Return (true, Some (errorString "broken pipe")),
                  {| rw := rw w0; rand_Reader := rand_Reader w0 |})).
  { apply (Hnp Build_noPasswordAuthenticator ∅ w0 (rw w0)
             (errorString "broken pipe")).
    vm_compute. reflexivity. }
  assert (Hc : clearText_authenticate secretPlain alice w
               = (Return (true, Some (errorString "broken pipe")),
                  {| rw := answered clearTextRequest w;
                     rand_Reader := rand_Reader w |})).
  { apply (Hct _ _ secretPlain alice w "alice" (challenged clearTextRequest w)
             (answered clearTextRequest w) (answered clearTextRequest w)
             (passwordMsg (bytes_of "secret")) (errorString "broken pipe"));
      vm_compute; reflexivity. }
  assert (Hm : md5_authenticate secretHashed alice w'
               = (Return (true, Some (errorString "broken pipe")),
                  {| rw := answered (md5Request salt) w';
                     rand_Reader := skipn 4 (rand_Reader w') |})).
  { apply (Hmd _ _ secretHashed alice w' "alice"
             (challenged (md5Request salt) w') (answered (md5Request salt) w')
             (answered (md5Request salt) w') hashed (errorString "broken pipe"));
      vm_compute; reflexivity. }
  rewrite Hn, Hc, Hm. repeat split.
Defined.

Lemma error_message_stays_last_witness :
  let ops :=
    [Enqueue (DataRow ["1"%string]); Enqueue (ErrorResponse "boom");
     Enqueue (DataRow ["2"%string]); Flush; Enqueue (CommandComplete "B");
     Enqueue (ErrorResponse "again"); Enqueue ReadyForQuery] in
  let t := buffer (emptyPipe ["B"%string]) [] in
  protocol.out (run ops t) = [CommandComplete "B"; ErrorResponse "again"]
  /\ error_only_last (protocol.out (run ops t)) = true.
Proof.
  intros ops t. split; [vm_compute; reflexivity|].
  apply (error_message_stays_last ops t). reflexivity.
Defined.

Lemma enqueue_all_keeps_through_first_error_witness :
  let ms :=
    [DataRow ["1"%string]; ErrorResponse "boom"; DataRow ["2"%string];
     CommandComplete "SELECT 2"] in
  run (map Enqueue ms) (buffer (emptyPipe []) [DataRow ["0"%string]])
  = buffer (emptyPipe [])
      [DataRow ["0"%string]; DataRow ["1"%string]; ErrorResponse "boom"].
Proof.
  intros ms.
  rewrite (enqueue_all_keeps_through_first_error ms
             (buffer (emptyPipe []) [DataRow ["0"%string]])) by reflexivity.
  reflexivity.
Defined.

Lemma flush_twice_witness :
  let t := buffer (emptyPipe []) [DataRow ["1"%string]; CommandComplete "SELECT 1"] in
  written (protocol.p (snd (protocol.flush t)))
  = [DataRow ["1"%string]; CommandComplete "SELECT 1"]
  /\ protocol.flush (snd (protocol.flush t)) = (None, snd (protocol.flush t)).
Proof.
  intros t. split; [vm_compute; reflexivity|].
  apply (flush_twice t). vm_compute. reflexivity.
Defined.

Lemma flush_resumes_witness :
  let c := emptyPipe ["B"%string] in
  let c1 := {| inbox := []; written := [DataRow ["1"%string]; ReadyForQuery];
               refused := ["B"%string] |} in
  protocol.flush
    (buffer c [DataRow ["1"%string]; ReadyForQuery; CommandComplete "B"; ReadyForQuery])
  = protocol.flush (buffer c1 [CommandComplete "B"; ReadyForQuery]).
Proof.
  intros c c1.
  apply (flush_resumes c c1 [] [DataRow ["1"%string]; ReadyForQuery]
           [CommandComplete "B"; ReadyForQuery]).
  eapply written_next; [reflexivity|].
  eapply written_next; [reflexivity|].
  apply written_none.
Defined.

Lemma self_described_tag_verbatim_witness :
  let s := sessionOn healthy (people, None) (merged, None) in
  sent (ts_conn (snd (query_Exec select1 background InsertStmt s)))
  = [completeMsg "MERGE 5"].
Proof.
  intros s.
  transitivity (sent (ts_conn (snd (session_Write (completeMsg "MERGE 5") s))));
    [|vm_compute; reflexivity].
  apply (f_equal (fun r => sent (ts_conn (snd r)))).
  apply (self_described_tag_verbatim select1 background InsertStmt s s merged);
    reflexivity.
Defined.

Lemma tag_error_written_instead_of_completion_witness :
  let s := sessionOn healthy (people, None) (uncounted, None) in
  query_Exec select1 background DeleteStmt s
  = (Return None,
     sessionOn {| incoming := []; sent := [errMsg denied]; writable := 7 |}
       (people, None) (uncounted, None))
  /\ tagger_Tag {| tagger_Result := uncounted; tagger_Node := DeleteStmt |}
     = (EmptyString, Some denied).
Proof.
  intros s.
  destruct (tag_error_written_instead_of_completion select1 background DeleteStmt
              s s uncounted EmptyString 0 denied) as [Hx Ht];
    [reflexivity | left; split; reflexivity |].
  split; [|apply Ht; reflexivity].
  transitivity (session_Write (errMsg denied) s); [exact Hx | vm_compute; reflexivity].
Defined.

Lemma iterator_failure_ends_result_witness :
  let s := sessionOn healthy (interrupted, None) (affected 0, None) in
  fst (query_Query 2 select1 background SelectStmt s) = Return None
  /\ sent (ts_conn (snd (query_Query 2 select1 background SelectStmt s)))
     = [rowDescriptionMsg [{| name := "id" |}; {| name := "name" |}];
        dataRowMsg ["1"; "a"]%string;
        errMsg noRelation].
Proof.
  intros s.
  assert (Hq : session_Query background SelectStmt s
               = (({| sr_Columns := ["id"; "name"]%string;
                      sr_pending := map inl [[AnyInt 1; AnyString "a"]]
                                    ++ inr noRelation
                                       :: [inl [AnyInt 2; AnyString "b"]] |}, None), s))
    by reflexivity.
  assert (Hall : Forall (fun r : list any => length r = length ["id"; "name"]%string)
                   [[AnyInt 1; AnyString "a"]])
    by (repeat constructor).
  pose proof (iterator_failure_ends_result 2 select1 background SelectStmt s s
                _ _ _ _ Hq Hall ltac:(simpl; lia) ltac:(simpl; lia)) as Hrun.
  cbv zeta in Hrun. rewrite Hrun. split; vm_compute; reflexivity.
Defined.



Lemma batch_runs_until_first_error_witness :
  let s := sessionOn {| incoming := []; sent := []; writable := 2 |}
             (people, None) (affected 1, None) in
  let s1 := sessionOn {| incoming := []; sent := [completeMsg "INSERT 0 1";
                                                   completeMsg "DELETE 1"];
                         writable := 0 |}
              (people, None) (affected 1, None) in
  Run_loop 3 select1 background [InsertStmt; DeleteStmt] s = (Return None, s1)
  /\ Run_loop 3 select1 background [InsertStmt; DeleteStmt; SelectStmt; UpdateStmt] s
     = (Return (Some (errorString "broken pipe")), s1).
Proof.
  intros s s1.
  destruct (batch_runs_until_first_error 3 select1 background s s1
              [InsertStmt; DeleteStmt]) as (Hdone & _ & Hstop).
  { eapply handled_next; [vm_compute; reflexivity|].
    eapply handled_next; [vm_compute; reflexivity|].
    apply handled_none. }
  split; [exact Hdone|].
  transitivity (session_Write (errMsg (errorString "broken pipe")) s1);
    [|vm_compute; reflexivity].
  apply (Hstop SelectStmt [UpdateStmt] (errorString "broken pipe") s1).
  vm_compute. reflexivity.
Defined.

Lemma only_write_failures_returned_witness :
  fst (query_Run 1 select1 sinking) = Return None
  /\ sunk (snd (query_Run 1 select1 sinking)) = [errMsg noRelation].
Proof.
  split; [|vm_compute; reflexivity].
  destruct (fst (query_Run 1 select1 sinking)) as [err| |] eqn:E;
    try (vm_compute in E; discriminate E).
  f_equal.
  destruct (only_write_failures_returned 1 select1 background SelectStmt sinking err)
    as (_ & _ & Hrun); [intros m s'; reflexivity|].
  apply Hrun. exact E.
Defined.

(** ** The input of the digest and the end of the row loop *)

Lemma unhex_Sprintf_x (bs : list byte) : unhex (bytes_of (Sprintf_x bs)) = bs.
Proof.
  induction bs as [|b bs IH]; [reflexivity|].
  change (Sprintf_x (b :: bs)) with (String.append (Sprintf_x [b]) (Sprintf_x bs)).
  rewrite bytes_of_append.
  change (bytes_of (Sprintf_x [b]))
    with [byte_of_ascii (hexdigit (Byte.to_N b / 16));
          byte_of_ascii (hexdigit (Byte.to_N b mod 16))].
  cbn [app unhex]. rewrite IH. f_equal. destruct b; reflexivity.
Qed.

(** X20. The bytes that [hashWithSalt] hands to the digest determine
    the stored hash and the salt: the hexadecimal text of the hash
    followed by the salt is the same for two pairs of a hash and a salt
    of equal length only when the hashes and the salts are the same.
    Two different expected responses therefore differ in their
    digests. *)
Theorem digest_input_determines_hash_and_salt
    `{md5} (hash hash' salt salt' : list byte) :
  length salt = length salt' ->
  (bytes_of (Sprintf_x hash) ++ salt = bytes_of (Sprintf_x hash') ++ salt'
   <-> hash = hash' /\ salt = salt')
  /\ (hashWithSalt hash salt <> hashWithSalt hash' salt' ->
      md5_Sum (bytes_of (Sprintf_x hash) ++ salt)
      <> md5_Sum (bytes_of (Sprintf_x hash') ++ salt')).
Proof.
  intros Hlen. split.
  - split.
    + intros Heq.
      assert (Hl : length (bytes_of (Sprintf_x hash))
                   = length (bytes_of (Sprintf_x hash'))).
      { apply (f_equal (@length byte)) in Heq. rewrite !length_app in Heq. lia. }
      apply app_inj_1 in Heq as [Hh Hs]; [|exact Hl].
      split; [|exact Hs].
      rewrite <- (unhex_Sprintf_x hash), <- (unhex_Sprintf_x hash'), Hh.
      reflexivity.
    + intros [-> ->]. reflexivity.
  - intros Hne Hd. apply Hne. unfold hashWithSalt. cbv zeta. rewrite Hd.
    reflexivity.
Qed.

Lemma digest_input_determines_hash_and_salt_witness :
  bytes_of (Sprintf_x [xab; xcd]%byte) ++ [x01; x02; x03; x04]%byte
  <> bytes_of (Sprintf_x [xab; xce]%byte) ++ [x01; x02; x03; x04]%byte.
Proof.
  intros Heq.
  destruct (digest_input_determines_hash_and_salt (H := crypto_md5)
              [xab; xcd]%byte [xab; xce]%byte
              [x01; x02; x03; x04]%byte [x01; x02; x03; x04]%byte eq_refl)
    as [[Hinj _] _].
  destruct (Hinj Heq) as [Hh _]. discriminate Hh.
Defined.

Section Termination.
Context `{msgEncoders} {S : Type} `{session S scriptRows}.

Lemma Query_loop_script_returns (cols : list string)
    (pending : list (list any + error)) :
  forall (fuel : nat) (row : list any) (strings : list string) (count : Z) (s : S),
    length strings = length row ->
    (length pending < fuel)%nat ->
    exists err s',
      Query_loop fuel {| sr_Columns := cols; sr_pending := pending |}
        row strings count s
      = (Return err, s').
Proof.
  induction pending as [|[values|e] pending IH];
    intros fuel row strings count s Hlen Hfuel;
    (destruct fuel as [|fuel]; [simpl in Hfuel; lia|]);
    cbn [Query_loop Next scriptRows_Rows scriptRows_Next sr_pending sr_Columns is_EOF].
  - apply session_Write_returns.
  - rewrite stringify_spec by (rewrite copy_length; simpl; lia).
    rewrite take_0. cbn [app]. unfold bind, lift.
    destruct (session_Write_returns
                (dataRowMsg (map Sprintf_v (copy row values))) s)
      as (err & s' & ->).
    destruct err as [e|]; [eexists _, _; reflexivity|].
    apply IH; [rewrite length_map; reflexivity | simpl in Hfuel; lia].
  - destruct (is_EOF e); apply session_Write_returns.
Qed.

(** X21. The row loop ends on every finite iterator: whatever the
    iterator handed over by the backend delivers, rows of any width and
    errors included, [query.Query] returns after asking for at most one
    step more than the iterator holds. *)
Theorem query_returns_on_finite_iterator
    (fuel : nat) (q : query) (ctx : context) (n : Node) (s s1 : S)
    (cols : list string) (pending : list (list any + error))
    (err0 : option error) :
  session_Query ctx n s
  = (({| sr_Columns := cols; sr_pending := pending |}, err0), s1) ->
  (length pending < fuel)%nat ->
  exists err s', query_Query fuel q ctx n s = (Return err, s').
Proof.
  intros Hq Hfuel.
  unfold query_Query. unfold bind at 1, call at 1. rewrite Hq.
  destruct err0 as [e|]; [apply session_Write_returns|].
  unfold bind.
  destruct (session_Write_returns
              (rowDescriptionMsg
                 (map (fun col => {| name := col |})
                    (Columns {| sr_Columns := cols; sr_pending := pending |}))) s1)
    as (err & s' & ->).
  destruct err as [e|]; [eexists _, _; reflexivity|].
  apply Query_loop_script_returns; [|exact Hfuel].
  rewrite !repeat_length. reflexivity.
Qed.

End Termination.

Lemma query_returns_on_finite_iterator_witness :
  let s := sessionOn healthy (ragged, None) (affected 0, None) in
  exists err s', query_Query 4 select1 background SelectStmt s = (Return err, s').
Proof.
  intros s.
  apply (query_returns_on_finite_iterator 4 select1 background SelectStmt s s
           ["id"; "name"]%string
           [inl [AnyInt 1; AnyString "a"]; inl [AnyInt 2];
            inl [AnyInt 3; AnyString "c"; AnyBool true]] None);
    [reflexivity | simpl; lia].
Defined.
